(** * bio-mcp-bwa: the BWA tool server ([src/server.py])

    A shallow embedding of [BwaServer]: the dispatcher [call_tool] and the
    five handlers [_run_index], [_run_mem], [_run_aln], [_run_samse] and
    [_run_sampe], over an explicit model of what they act on: the argument
    dictionary, the filesystem, the table of child processes and the log.

    Python text is modelled by its UTF-8 encoding, a [string] of bytes;
    [bytes.decode()] is then validation. The external world (the aligner
    binary, the name chosen by [tempfile], the wording of interpreter error
    messages) is a [Runtime] record the handlers are parametrised by. *)

From Stdlib Require Import ZArith NArith List String Ascii Bool Lia.
From Stdlib Require Import DecimalString.
From stdpp Require Import base option gmap strings list.

Local Open Scope string_scope.
Local Open Scope list_scope.
Local Open Scope Z_scope.

(** ** Characters and text *)

Definition LF : ascii := "010"%char.
Definition CR : ascii := "013"%char.
Definition nl : string := String LF EmptyString.

(** The bullet of the index summary, U+2022, in UTF-8. *)
Definition bullet : string :=
  String "226"%char (String "128"%char (String "162"%char EmptyString)).

(** [sep.join(xs)] *)
Fixpoint join (sep : string) (xs : list string) : string :=
  match xs with
  | [] => ""
  | [x] => x
  | x :: rest => x +:+ sep +:+ join sep rest
  end.

(** [s.startswith(c)] for a one-character [c]. *)
Definition startswith (c : ascii) (s : string) : bool :=
  match s with
  | String a _ => bool_decide (a = c)
  | EmptyString => false
  end.

(** [needle in hay]: [needle] occurs in [hay] as a contiguous run of bytes. *)
Definition contains (hay needle : string) : Prop :=
  ∃ pre post, hay = pre +:+ needle +:+ post.

(** ** Values of the argument dictionary

    The request carries a JSON object; its values are strings, integers and
    booleans. *)

Inductive value :=
| VStr (s : string)
| VInt (z : Z)
| VBool (b : bool).

Abbreviation dict := (gmap string value).

(** [str(n)] for an [int]. *)
Definition str_int (z : Z) : string := NilZero.string_of_int (Z.to_int z).

(** [str(v)], which is also how an f-string renders [{v}]. *)
Definition py_str (v : value) : string :=
  match v with
  | VStr s => s
  | VInt z => str_int z
  | VBool true => "True"
  | VBool false => "False"
  end.

(** Truth value of [arguments.get(k)]: [None], [""], [0] and [False] are
    false. *)
Definition truthy (o : option value) : bool :=
  match o with
  | None => false
  | Some (VStr s) => negb (bool_decide (s = ""))
  | Some (VInt z) => negb (z =? 0)
  | Some (VBool b) => b
  end.

(** [arguments.get(k, d)] *)
Definition get (arguments : dict) (k : string) (d : value) : value :=
  default d (arguments !! k).

(** ** Thousands separators: [f"{n:,}"] for a non-negative [n] *)

Fixpoint group3 (fuel : nat) (rev_digits : list ascii) : list ascii :=
  match fuel with
  | O => rev_digits
  | S fuel' =>
      match rev_digits with
      | a :: b :: c :: (_ :: _) as rest => a :: b :: c :: ","%char :: group3 fuel' rest
      | _ => rev_digits
      end
  end.

Definition fmt_thousands (n : N) : string :=
  let ds := list_ascii_of_string (str_int (Z.of_N n)) in
  string_of_list_ascii (rev (group3 (length ds) (rev ds))).

Example fmt_thousands_0 : fmt_thousands 0 = "0".
Proof. reflexivity. Qed.
Example fmt_thousands_999 : fmt_thousands 999 = "999".
Proof. reflexivity. Qed.
Example fmt_thousands_1000 : fmt_thousands 1000 = "1,000".
Proof. reflexivity. Qed.
Example fmt_thousands_big : fmt_thousands 1234567890 = "1,234,567,890".
Proof. reflexivity. Qed.
Example str_int_neg : str_int (-42) = "-42".
Proof. reflexivity. Qed.

(** ** UTF-8 and text-mode reading

    [bytes.decode()] and a text-mode [open] decode strictly: overlong forms,
    surrogates and code points above U+10FFFF are rejected. *)

Inductive ustate :=
| U0
| Ucont (more : nat) (lo hi : N).

Definition utf8_step (st : ustate) (a : ascii) : option ustate :=
  let b := N_of_ascii a in
  match st with
  | U0 =>
      if (b <=? 127)%N then Some U0
      else if ((194 <=? b) && (b <=? 223))%N then Some (Ucont 0 128 191)
      else if (b =? 224)%N then Some (Ucont 1 160 191)
      else if ((225 <=? b) && (b <=? 236))%N then Some (Ucont 1 128 191)
      else if (b =? 237)%N then Some (Ucont 1 128 159)
      else if ((238 <=? b) && (b <=? 239))%N then Some (Ucont 1 128 191)
      else if (b =? 240)%N then Some (Ucont 2 144 191)
      else if ((241 <=? b) && (b <=? 243))%N then Some (Ucont 2 128 191)
      else if (b =? 244)%N then Some (Ucont 2 128 143)
      else None
  | Ucont more lo hi =>
      if ((lo <=? b) && (b <=? hi))%N
      then Some (match more with O => U0 | S m => Ucont m 128 191 end)
      else None
  end.

Fixpoint utf8_run (st : ustate) (s : string) : bool :=
  match s with
  | EmptyString => match st with U0 => true | Ucont _ _ _ => false end
  | String a r =>
      match utf8_step st a with
      | Some st' => utf8_run st' r
      | None => false
      end
  end.

Definition valid_utf8 (s : string) : bool := utf8_run U0 s.

(** The lines a text-mode file object yields when iterated (universal
    newlines: LF, CR LF and a lone CR each end a line and read as LF). *)
Fixpoint text_lines (s : string) : list string :=
  match s with
  | EmptyString => []
  | String a r =>
      if bool_decide (a = LF) then nl :: text_lines r
      else if bool_decide (a = CR) then
        match r with
        | String b r' =>
            if bool_decide (b = LF) then nl :: text_lines r' else nl :: text_lines r
        | EmptyString => [nl]
        end
      else
        match text_lines r with
        | [] => [String a EmptyString]
        | l :: ls => String a l :: ls
        end
  end.

(** ** Paths ([pathlib.Path], POSIX flavour)

    A path is its root ([""], ["/"] or ["//"]) and its parts; [Path(s)] drops
    empty and ["."] components. The filesystem is keyed by such paths. *)

Abbreviation path := (string * list string)%type.

Fixpoint split_sep (c : ascii) (s : string) : list string :=
  match s with
  | EmptyString => [""]
  | String a r =>
      if bool_decide (a = c) then "" :: split_sep c r
      else match split_sep c r with
           | [] => [String a EmptyString]
           | x :: xs => String a x :: xs
           end
  end.

Definition root_of (s : string) : string :=
  let slash a := bool_decide (a = "/"%char) in
  match s with
  | String a (String b (String c _)) =>
      if slash a then (if slash b then (if slash c then "/" else "//") else "/") else ""
  | String a (String b EmptyString) =>
      if slash a then (if slash b then "//" else "/") else ""
  | String a EmptyString => if slash a then "/" else ""
  | EmptyString => ""
  end.

Definition is_part (x : string) : bool :=
  negb (bool_decide (x = "")) && negb (bool_decide (x = ".")).

Definition Path (s : string) : path :=
  (root_of s, List.filter is_part (split_sep "/"%char s)).

(** [str(p)] *)
Definition path_str (p : path) : string :=
  match p with
  | (EmptyString, []) => "."
  | (r, ps) => r +:+ join "/" ps
  end.

(** [p / s] *)
Definition joinpath (p : path) (s : string) : path :=
  match root_of s with
  | EmptyString => (p.1, p.2 ++ (Path s).2)
  | _ => Path s
  end.

(** [p.name] *)
Definition path_name (p : path) : string := List.last p.2 "".

(** [d] is [p] or an ancestor of [p]. *)
Definition under (d p : path) : Prop := d.1 = p.1 ∧ d.2 `prefix_of` p.2.

#[global] Instance under_dec d p : Decision (under d p).
Proof. unfold under. apply _. Defined.

Example Path_norm : path_str (Path "/data//ref/./hg38.fa") = "/data/ref/hg38.fa".
Proof. reflexivity. Qed.
Example Path_rel : path_str (Path "reads/r1.fq") = "reads/r1.fq".
Proof. reflexivity. Qed.
Example Path_empty : path_str (Path "") = ".".
Proof. reflexivity. Qed.
Example Path_join : path_str (joinpath (Path "/tmp/tmpab12") "alignment.sam")
                    = "/tmp/tmpab12/alignment.sam".
Proof. reflexivity. Qed.
Example text_lines_mixed :
  text_lines ("@HD" +:+ nl +:+ "r1" +:+ String CR nl +:+ "r2") = ["@HD" +:+ nl; "r1" +:+ nl; "r2"].
Proof. reflexivity. Qed.
Example valid_utf8_bullet : valid_utf8 bullet = true.
Proof. reflexivity. Qed.
Example invalid_utf8_ff : valid_utf8 (String "255"%char EmptyString) = false.
Proof. reflexivity. Qed.

(** ** The world the handlers act on *)

(** A filesystem entry. [Blob] is a regular file of which only the size is
    tracked (reference genomes and read files, which the server never
    opens); [Data] is a regular file with its bytes. *)
Inductive node :=
| Dir (st_size : N)
| Blob (st_size : N)
| Data (bytes : string).

Definition node_size (n : node) : N :=
  match n with
  | Dir k | Blob k => k
  | Data b => N.of_nat (String.length b)
  end.

Abbreviation FS := (gmap path node).

(** A child process: its argument vector and whether it is still running. *)
Record child := Child { argv : list string; running : bool }.

(** The state of the world: the filesystem, every child process launched so
    far, the lines written by [logger.error], and the directories
    [tempfile] has created so far. The last is a history kept for stating
    properties; no handler reads it. *)
Record World := MkWorld {
  fs : FS;
  children : list child;
  log : list string;
  tmpdirs : list path
}.

Definition set_fs (f : FS → FS) (w : World) : World :=
  MkWorld (f (fs w)) (children w) (log w) (tmpdirs w).
Definition set_children (f : list child → list child) (w : World) : World :=
  MkWorld (fs w) (f (children w)) (log w) (tmpdirs w).
Definition add_log (line : string) (w : World) : World :=
  MkWorld (fs w) (children w) (log w ++ [line]) (tmpdirs w).
Definition add_tmpdir (d : path) (w : World) : World :=
  MkWorld (<[d := Dir 0]> (fs w)) (children w) (log w) (tmpdirs w ++ [d]).

(** ** Exceptions (subclasses of [Exception]) and the error monad *)

Inductive exn :=
| KeyError (key : string)
| TimeoutError
| TypeError (msg : string)
| ValueError (msg : string)
| OSError (msg : string)
| UnicodeDecodeError (msg : string).

(** [str(e)]. [asyncio.wait_for] raises [TimeoutError()] without arguments;
    [KeyError] prints the repr of its key. *)
Definition exn_str (e : exn) : string :=
  match e with
  | KeyError k => "'" +:+ k +:+ "'"
  | TimeoutError => ""
  | TypeError m | ValueError m | OSError m | UnicodeDecodeError m => m
  end.

Inductive result (A : Type) :=
| Ok (a : A)
| Raise (e : exn).
Arguments Ok {A} a.
Arguments Raise {A} e.

Definition M (A : Type) : Type := World → result A * World.

Definition ret {A} (a : A) : M A := λ w, (Ok a, w).
Definition raise {A} (e : exn) : M A := λ w, (Raise e, w).
Definition bind {A B} (m : M A) (k : A → M B) : M B :=
  λ w, match m w with
       | (Ok a, w') => k a w'
       | (Raise e, w') => (Raise e, w')
       end.

Notation "'do' x <- m ; k" := (bind m (λ x, k))
  (at level 10, x name, m at level 100, k at level 200).

(** ** The runtime: everything outside the repository *)

(** What a launched child does: how long it runs, its exit status, what it
    writes to its standard streams and how it changes the filesystem. *)
Record behaviour := Behaviour {
  run_time : Z;
  returncode : Z;
  out : string;
  err : string;
  effect : FS → FS
}.

(** Situations in which the interpreter or the OS words an error message. *)
Inductive fault :=
| NotPathLike (v : value)
| NotAnArgument (v : value)
| BadUtf8 (b : string)
| EmptyName (p : path)
| NoSuchFile (p : path)
| IsADirectory (p : path)
| FileExists (p : path)
| NotReadable (p : path).

Record Runtime := MkRuntime {
  (** the name [tempfile] picks under [dir], or the error it raises *)
  mkdtemp : option string → FS → result string;
  (** launching an argument vector: the child's behaviour, or the error
      raised when it cannot be launched *)
  exec : list string → FS → result behaviour;
  message : fault → string
}.

Record ServerSettings := MkSettings {
  max_file_size : Z;
  temp_dir : option string;
  timeout : Z;
  bwa_path : string
}.

Definition default_settings : ServerSettings :=
  MkSettings 50000000000 None 3600 "bwa".

Inductive content :=
| TextContent (text : string)
| ErrorContent (text : string).

(** A handle on a launched child: its index in [children], what it will do,
    and the file its standard output is redirected to, if any. *)
Record process := Process { pid : nat; beh : behaviour; stdout_file : option path }.

(** ** Primitive operations *)

Section Primitives.
Variable rt : Runtime.

(** [arguments[k]] *)
Definition getitem (arguments : dict) (k : string) : M value :=
  match arguments !! k with
  | Some v => ret v
  | None => raise (KeyError k)
  end.

(** [Path(v)] *)
Definition mkPath (v : value) : M path :=
  match v with
  | VStr s => ret (Path s)
  | _ => raise (TypeError (message rt (NotPathLike v)))
  end.

(** [p.exists()] *)
Definition exists_ (p : path) : M bool :=
  λ w, (Ok (bool_decide (is_Some (fs w !! p))), w).

(** [p.stat().st_size] *)
Definition stat_size (p : path) : M N :=
  λ w, match fs w !! p with
       | Some n => (Ok (node_size n), w)
       | None => (Raise (OSError (message rt (NoSuchFile p))), w)
       end.

(** [p.with_suffix(p.suffix + suffix)]: the name with [suffix] appended;
    a path without a name is refused. *)
Definition with_suffix_added (p : path) (suffix : string) : M path :=
  if bool_decide (path_name p = "")
  then raise (ValueError (message rt (EmptyName p)))
  else ret (p.1, removelast p.2 ++ [path_name p +:+ suffix]).

Definition parent (p : path) : path := (p.1, removelast p.2).

(** [open(p, 'w')]: create or truncate; the directory must exist. *)
Definition open_w (p : path) : M unit :=
  λ w, match fs w !! parent p with
       | Some (Dir _) =>
           match fs w !! p with
           | Some (Dir _) => (Raise (OSError (message rt (IsADirectory p))), w)
           | _ => (Ok (), set_fs <[p := Data ""]> w)
           end
       | _ => (Raise (OSError (message rt (NoSuchFile p))), w)
       end.

(** [[line for line in open(p)]]: decode, then split into lines. *)
Definition read_lines (p : path) : M (list string) :=
  λ w, match fs w !! p with
       | Some (Data b) =>
           if valid_utf8 b then (Ok (text_lines b), w)
           else (Raise (UnicodeDecodeError (message rt (BadUtf8 b))), w)
       | Some (Blob _) => (Raise (OSError (message rt (NotReadable p))), w)
       | Some (Dir _) => (Raise (OSError (message rt (IsADirectory p))), w)
       | None => (Raise (OSError (message rt (NoSuchFile p))), w)
       end.

(** [b.decode()] *)
Definition decode (b : string) : M string :=
  if valid_utf8 b then ret b
  else raise (UnicodeDecodeError (message rt (BadUtf8 b))).

(** [shutil.rmtree(d)] *)
Definition rmtree (d : path) (m : FS) : FS :=
  filter (λ kv, ¬ under d kv.1) m.

(** [with tempfile.TemporaryDirectory(dir=dir) as tmpdir: body]: the
    directory is created, the body runs, and the directory is removed
    with all it holds whether the body returns or raises. *)
Definition with_TemporaryDirectory {A} (dir : option string)
    (body : string → M A) : M A :=
  λ w, match mkdtemp rt dir (fs w) with
       | Raise e => (Raise e, w)
       | Ok tmpdir =>
           match fs w !! Path tmpdir with
           | Some _ => (Raise (OSError (message rt (FileExists (Path tmpdir)))), w)
           | None =>
               let '(r, w') := body tmpdir (add_tmpdir (Path tmpdir) w) in
               (r, set_fs (rmtree (Path tmpdir)) w')
           end
       end.

(** The argument vector as strings, or the first element that is none. *)
Fixpoint as_argv (cmd : list value) : value + list string :=
  match cmd with
  | [] => inr []
  | VStr s :: rest =>
      match as_argv rest with
      | inr ss => inr (s :: ss)
      | inl v => inl v
      end
  | v :: _ => inl v
  end.

(** [asyncio.create_subprocess_exec] on the elements of [cmd], standard
    error captured, standard output captured or sent to a file. *)
Definition create_subprocess_exec (cmd : list value)
    (stdout : option path) : M process :=
  λ w, match as_argv cmd with
       | inl v => (Raise (TypeError (message rt (NotAnArgument v))), w)
       | inr args =>
           match exec rt args (fs w) with
           | Raise e => (Raise e, w)
           | Ok b =>
               (Ok (Process (length (children w)) b stdout),
                set_children (λ cs, cs ++ [Child args true]) w)
           end
       end.

Definition reap (i : nat) (cs : list child) : list child :=
  alter (λ c, Child (argv c) false) i cs.

Definition write_stdout (p : process) (m : FS) : FS :=
  match stdout_file p with
  | Some f => <[f := Data (out (beh p))]> m
  | None => m
  end.

(** [asyncio.wait_for(process.communicate(), timeout=t)]: a child that
    finishes within [t] has written its output and is reaped, and its
    captured streams are returned; otherwise the wait is cancelled and
    [TimeoutError] raised, the child being left as it is. *)
Definition wait_for_communicate (p : process) (t : Z) : M (string * string) :=
  λ w, if run_time (beh p) <? t
       then (Ok (out (beh p), err (beh p)),
             set_children (reap (pid p))
               (set_fs (λ m, write_stdout p (effect (beh p) m)) w))
       else (Raise TimeoutError, w).
End Primitives.

(** ** The handlers of [BwaServer] *)

Abbreviation response := (list content * World)%type.

(** [try: body except Exception as e: logger.error(...); return
    [ErrorContent(text=f"Error: {str(e)}")]] *)
Definition try_except (what : string) (body : M (list content)) : World → response :=
  λ w, match body w with
       | (Ok r, w') => (r, w')
       | (Raise e, w') =>
           ([ErrorContent ("Error: " +:+ exn_str e)],
            add_log ("Error in BWA " +:+ what +:+ ": " +:+ exn_str e) w')
       end.

(** The size above which [bwtsw] is the default indexing algorithm. *)
Definition bwtsw_threshold : N := 2000000000.

Section BwaServer.
Variable rt : Runtime.
Variable settings : ServerSettings.

Fixpoint list_index_files (reference_fasta : path) (suffixes : list string)
    : M (list string) :=
  match suffixes with
  | [] => ret []
  | suffix :: rest =>
      do index_file <- with_suffix_added rt reference_fasta suffix;
      do found <- exists_ index_file;
      do index_files <- list_index_files reference_fasta rest;
      ret (if found then path_str index_file :: index_files else index_files)
  end.

Definition run_index_body (arguments : dict) : M (list content) :=
  do v <- getitem arguments "reference_fasta";
  do reference_fasta <- mkPath rt v;
  do found <- exists_ reference_fasta;
  if negb found
  then ret [ErrorContent ("Reference file not found: " +:+ path_str reference_fasta)]
  else
    do file_size <- stat_size rt reference_fasta;
    let algorithm :=
      get arguments "algorithm"
        (VStr (if (bwtsw_threshold <? file_size)%N then "bwtsw" else "is")) in
    let cmd := [VStr (bwa_path settings); VStr "index"; VStr "-a"; algorithm;
                VStr (path_str reference_fasta)] in
    do process <- create_subprocess_exec rt cmd None;
    do streams <- wait_for_communicate process (timeout settings);
    if negb (returncode (beh process) =? 0)
    then
      do msg <- decode rt streams.2;
      ret [ErrorContent ("BWA index failed: " +:+ msg)]
    else
      do index_files <-
        list_index_files reference_fasta [".amb"; ".ann"; ".bwt"; ".pac"; ".sa"];
      ret [TextContent
             ("BWA index created successfully!" +:+ nl +:+ nl
              +:+ "Reference: " +:+ path_str reference_fasta +:+ nl
              +:+ "Algorithm: " +:+ py_str algorithm +:+ nl
              +:+ "Index files created:" +:+ nl
              +:+ join nl (map (λ f, "  " +:+ bullet +:+ " " +:+ f) index_files))].

Definition _run_index (arguments : dict) : World → response :=
  try_except "index" (run_index_body arguments).

(** [with open(output, 'w') as f:] launch [cmd] with [stdout=f] and wait for
    it within the timeout; yields the process and its captured standard
    error. *)
Definition run_redirected (cmd : list value) (output : path)
    : M (process * string) :=
  do _ <- open_w rt output;
  do process <- create_subprocess_exec rt cmd (Some output);
  do streams <- wait_for_communicate process (timeout settings);
  ret (process, streams.2).

(** The part of [_run_mem] that builds the argument vector. *)
Definition mem_cmd (arguments : dict) (reference reads1 : path) : M (list value) :=
  let cmd := [VStr (bwa_path settings); VStr "mem";
              VStr "-t"; VStr (py_str (get arguments "threads" (VInt 4)));
              VStr "-k"; VStr (py_str (get arguments "min_seed_length" (VInt 19)));
              VStr "-w"; VStr (py_str (get arguments "band_width" (VInt 100)))] in
  do cmd <- (if truthy (arguments !! "read_group")
             then do read_group <- getitem arguments "read_group";
                  ret (cmd ++ [VStr "-R"; read_group])
             else ret cmd);
  let cmd := cmd ++ [VStr (path_str reference)] in
  let cmd := cmd ++ [VStr (path_str reads1)] in
  if truthy (arguments !! "reads2")
  then do v <- getitem arguments "reads2";
       do reads2 <- mkPath rt v;
       do found <- exists_ reads2;
       ret (if found then cmd ++ [VStr (path_str reads2)] else cmd)
  else ret cmd.

(** [sum(1 for line in f if not line.startswith('@'))] *)
Definition count_records (lines : list string) : nat :=
  length (List.filter (λ line, negb (startswith "@"%char line)) lines).

Definition mem_summary (arguments : dict) (output_sam : path)
    (output_size : N) (total_lines : nat) : string :=
  "BWA-MEM alignment completed!" +:+ nl +:+ nl
  +:+ "Output file: " +:+ path_str output_sam +:+ nl
  +:+ "Output size: " +:+ fmt_thousands output_size +:+ " bytes" +:+ nl
  +:+ "Alignment records: " +:+ fmt_thousands (N.of_nat total_lines) +:+ nl
  +:+ "Threads used: " +:+ py_str (get arguments "threads" (VInt 4)) +:+ nl
  +:+ "Paired-end: " +:+ (if truthy (arguments !! "reads2") then "Yes" else "No").

Definition run_mem_body (arguments : dict) : M (list content) :=
  do v1 <- getitem arguments "reference";
  do reference <- mkPath rt v1;
  do v2 <- getitem arguments "reads1";
  do reads1 <- mkPath rt v2;
  do found <- exists_ reference;
  if negb found
  then ret [ErrorContent ("Reference not found: " +:+ path_str reference)]
  else
    do found <- exists_ reads1;
    if negb found
    then ret [ErrorContent ("Reads file not found: " +:+ path_str reads1)]
    else
      with_TemporaryDirectory rt (temp_dir settings) (λ tmpdir,
        let output_sam := joinpath (Path tmpdir) "alignment.sam" in
        do cmd <- mem_cmd arguments reference reads1;
        do ran <- run_redirected cmd output_sam;
        if negb (returncode (beh ran.1) =? 0)
        then
          do msg <- decode rt ran.2;
          ret [ErrorContent ("BWA mem failed: " +:+ msg)]
        else
          do output_size <- stat_size rt output_sam;
          do lines <- read_lines rt output_sam;
          let total_lines := count_records lines in
          ret [TextContent (mem_summary arguments output_sam output_size total_lines)]).

Definition _run_mem (arguments : dict) : World → response :=
  try_except "mem" (run_mem_body arguments).

Definition run_aln_body (arguments : dict) : M (list content) :=
  do v1 <- getitem arguments "reference";
  do reference <- mkPath rt v1;
  do v2 <- getitem arguments "reads";
  do reads <- mkPath rt v2;
  do found <- exists_ reference;
  if negb found
  then ret [ErrorContent ("Reference not found: " +:+ path_str reference)]
  else
    do found <- exists_ reads;
    if negb found
    then ret [ErrorContent ("Reads file not found: " +:+ path_str reads)]
    else
      with_TemporaryDirectory rt (temp_dir settings) (λ tmpdir,
        let output_sai := joinpath (Path tmpdir) "alignment.sai" in
        let cmd := [VStr (bwa_path settings); VStr "aln";
                    VStr "-t"; VStr (py_str (get arguments "threads" (VInt 4)));
                    VStr "-n"; VStr (py_str (get arguments "max_mismatches" (VInt 4)));
                    VStr "-o"; VStr (py_str (get arguments "max_gap_opens" (VInt 1)));
                    VStr (path_str reference);
                    VStr (path_str reads)] in
        do ran <- run_redirected cmd output_sai;
        if negb (returncode (beh ran.1) =? 0)
        then
          do msg <- decode rt ran.2;
          ret [ErrorContent ("BWA aln failed: " +:+ msg)]
        else
          do output_size <- stat_size rt output_sai;
          ret [TextContent
                 ("BWA aln completed!" +:+ nl +:+ nl
                  +:+ "Output SAI file: " +:+ path_str output_sai +:+ nl
                  +:+ "Output size: " +:+ fmt_thousands output_size +:+ " bytes" +:+ nl
                  +:+ "Use bwa_samse/sampe to convert to SAM format")]).

Definition _run_aln (arguments : dict) : World → response :=
  try_except "aln" (run_aln_body arguments).

(** [for file_path in paths: if not file_path.exists(): return ...]: the
    first path of the list that does not exist. *)
Fixpoint first_missing (paths : list path) : M (option path) :=
  match paths with
  | [] => ret None
  | file_path :: rest =>
      do found <- exists_ file_path;
      if negb found then ret (Some file_path) else first_missing rest
  end.

Definition run_samse_body (arguments : dict) : M (list content) :=
  do v1 <- getitem arguments "reference";
  do reference <- mkPath rt v1;
  do v2 <- getitem arguments "sai_file";
  do sai_file <- mkPath rt v2;
  do v3 <- getitem arguments "reads";
  do reads <- mkPath rt v3;
  do missing <- first_missing [reference; sai_file; reads];
  match missing with
  | Some file_path => ret [ErrorContent ("File not found: " +:+ path_str file_path)]
  | None =>
      with_TemporaryDirectory rt (temp_dir settings) (λ tmpdir,
        let output_sam := joinpath (Path tmpdir) "alignment.sam" in
        let cmd := [VStr (bwa_path settings); VStr "samse";
                    VStr (path_str reference);
                    VStr (path_str sai_file);
                    VStr (path_str reads)] in
        do ran <- run_redirected cmd output_sam;
        if negb (returncode (beh ran.1) =? 0)
        then
          do msg <- decode rt ran.2;
          ret [ErrorContent ("BWA samse failed: " +:+ msg)]
        else
          do output_size <- stat_size rt output_sam;
          ret [TextContent
                 ("BWA samse completed!" +:+ nl +:+ nl
                  +:+ "Output SAM file: " +:+ path_str output_sam +:+ nl
                  +:+ "Output size: " +:+ fmt_thousands output_size +:+ " bytes")])
  end.

Definition _run_samse (arguments : dict) : World → response :=
  try_except "samse" (run_samse_body arguments).

Definition run_sampe_body (arguments : dict) : M (list content) :=
  do v1 <- getitem arguments "reference";
  do reference <- mkPath rt v1;
  do v2 <- getitem arguments "sai_file1";
  do sai_file1 <- mkPath rt v2;
  do v3 <- getitem arguments "sai_file2";
  do sai_file2 <- mkPath rt v3;
  do v4 <- getitem arguments "reads1";
  do reads1 <- mkPath rt v4;
  do v5 <- getitem arguments "reads2";
  do reads2 <- mkPath rt v5;
  do missing <- first_missing [reference; sai_file1; sai_file2; reads1; reads2];
  match missing with
  | Some file_path => ret [ErrorContent ("File not found: " +:+ path_str file_path)]
  | None =>
      with_TemporaryDirectory rt (temp_dir settings) (λ tmpdir,
        let output_sam := joinpath (Path tmpdir) "alignment.sam" in
        let cmd := [VStr (bwa_path settings); VStr "sampe";
                    VStr (path_str reference);
                    VStr (path_str sai_file1);
                    VStr (path_str sai_file2);
                    VStr (path_str reads1);
                    VStr (path_str reads2)] in
        do ran <- run_redirected cmd output_sam;
        if negb (returncode (beh ran.1) =? 0)
        then
          do msg <- decode rt ran.2;
          ret [ErrorContent ("BWA sampe failed: " +:+ msg)]
        else
          do output_size <- stat_size rt output_sam;
          ret [TextContent
                 ("BWA sampe completed!" +:+ nl +:+ nl
                  +:+ "Output SAM file: " +:+ path_str output_sam +:+ nl
                  +:+ "Output size: " +:+ fmt_thousands output_size +:+ " bytes")])
  end.

Definition _run_sampe (arguments : dict) : World → response :=
  try_except "sampe" (run_sampe_body arguments).

(** [handlers.get(name)] *)
Definition handlers (name : string) : option (dict → World → response) :=
  if bool_decide (name = "bwa_index") then Some _run_index
  else if bool_decide (name = "bwa_mem") then Some _run_mem
  else if bool_decide (name = "bwa_aln") then Some _run_aln
  else if bool_decide (name = "bwa_samse") then Some _run_samse
  else if bool_decide (name = "bwa_sampe") then Some _run_sampe
  else None.

Definition call_tool (name : string) (arguments : dict) : World → response :=
  match handlers name with
  | Some handler => handler arguments
  | None => λ w, ([ErrorContent ("Unknown tool: " +:+ name)], w)
  end.
End BwaServer.

(** ** A concrete runtime and world, for evaluating the handlers *)

Module Scenario.
(** Messages worded as CPython words them. *)
Definition py_message (f : fault) : string :=
  match f with
  | NotPathLike _ | NotAnArgument _ => "expected str, bytes or os.PathLike object"
  | BadUtf8 _ => "'utf-8' codec can't decode byte 0xff in position 0: invalid start byte"
  | EmptyName _ => "path has an empty name"
  | NoSuchFile p => "[Errno 2] No such file or directory: '" +:+ path_str p +:+ "'"
  | IsADirectory p => "[Errno 21] Is a directory: '" +:+ path_str p +:+ "'"
  | FileExists p => "[Errno 17] File exists: '" +:+ path_str p +:+ "'"
  | NotReadable p => "[Errno 5] Input/output error: '" +:+ path_str p +:+ "'"
  end.

(** A runtime in which every launch succeeds and behaves as [b]. *)
Definition runtime (b : behaviour) : Runtime :=
  MkRuntime (λ _ _, Ok "/tmp/tmpk3x9") (λ _ _, Ok b) py_message.

(** A reference of exactly 2,000,000,000 bytes and one reads file. *)
Definition disk : FS :=
  <[Path "/data/ref.fa" := Blob 2000000000]>
    (<[Path "/data/r1.fq" := Blob 1024]>
       (<[Path "/data" := Dir 4096]> (<[Path "/tmp" := Dir 4096]> ∅))).

Definition world : World := MkWorld disk [] [] [].

(** A run that exits with status 0 after five seconds, having written one
    header line and two alignment records. *)
Definition sam : string :=
  "@SQ" +:+ nl +:+ "read1" +:+ nl +:+ "read2" +:+ nl.
Definition good : behaviour := Behaviour 5 0 sam "" id.

(** A run that needs longer than the default timeout of 3600 seconds. *)
Definition slow : behaviour := Behaviour 5000 0 "" "" id.

(** A run that fails, its diagnostics being the single byte 0xFF. *)
Definition garbled : behaviour := Behaviour 5 1 "" (String "255"%char "") id.

(** A run that fails with a plain diagnostic. *)
Definition failing : behaviour := Behaviour 5 1 "" "[E::bwa_idx_load] fail" id.

Definition mem_args : dict :=
  <["reference" := VStr "/data/ref.fa"]> (<["reads1" := VStr "/data/r1.fq"]> ∅).

(** The same call with a second reads path that names no file. *)
Definition mem_args_missing_reads2 : dict :=
  <["reads2" := VStr "/data/r2.fq"]> mem_args.

Definition index_args : dict := <["reference_fasta" := VStr "/data/ref.fa"]> ∅.
End Scenario.

(** ** Basic facts *)

Lemma app_cons (x : ascii) (a b : string) : String x a +:+ b = String x (a +:+ b).
Proof. reflexivity. Qed.

Lemma app_nil_l (a : string) : "" +:+ a = a.
Proof. reflexivity. Qed.

Lemma app_nil_r (a : string) : a +:+ "" = a.
Proof. induction a as [|x a IH]; [done |]. by rewrite app_cons, IH. Qed.

Lemma string_app_assoc (a b c : string) : (a +:+ b) +:+ c = a +:+ (b +:+ c).
Proof. induction a as [|x a IH]; [done |]. by rewrite !app_cons, IH. Qed.

Lemma chars_app (a b : string) :
  list_ascii_of_string (a +:+ b) = list_ascii_of_string a ++ list_ascii_of_string b.
Proof. induction a as [|x a IH]; [done |]. rewrite app_cons. simpl. by rewrite IH. Qed.

(** A string that contains another contains each of its bytes. *)
Lemma contains_chars (hay needle : string) (c : ascii) :
  contains hay needle →
  c ∈ list_ascii_of_string needle → c ∈ list_ascii_of_string hay.
Proof.
  intros (pre & post & ->) Hc. rewrite !chars_app.
  apply elem_of_app. right. apply elem_of_app. by left.
Qed.

Lemma contains_suffix (prefix s : string) : contains (prefix +:+ s) s.
Proof. exists prefix, "". by rewrite app_nil_r. Qed.

(** What [count_records] counts: all lines less those that start with [@]. *)
Lemma count_records_minus (lines : list string) :
  count_records lines
  = (length lines - length (List.filter (startswith "@"%char) lines))%nat.
Proof.
  unfold count_records. induction lines as [|l ls IH]; simpl; [done |].
  pose proof (List.filter_length_le (startswith "@"%char) ls).
  destruct (startswith "@"%char l); simpl; lia.
Qed.

(** ** Settings *)

(** C10: no operation reads [max_file_size]. Two servers whose settings
    agree on the temporary directory, the timeout and the binary path give
    the same response and leave the same world behind, for every call and
    every state of the world, whatever their [max_file_size]. *)
Theorem max_file_size_never_read (rt : Runtime) (s1 s2 : ServerSettings)
    (name : string) (arguments : dict) (w : World) :
  temp_dir s1 = temp_dir s2 →
  timeout s1 = timeout s2 →
  bwa_path s1 = bwa_path s2 →
  call_tool rt s1 name arguments w = call_tool rt s2 name arguments w.
Proof.
  destruct s1 as [m1 d1 t1 b1], s2 as [m2 d2 t2 b2]; simpl.
  intros -> -> ->. reflexivity.
Qed.

Lemma max_file_size_never_read_witness :
  call_tool (Scenario.runtime Scenario.good) (MkSettings 1 None 3600 "bwa")
    "bwa_mem" Scenario.mem_args Scenario.world
  = call_tool (Scenario.runtime Scenario.good) default_settings
      "bwa_mem" Scenario.mem_args Scenario.world.
Proof. apply max_file_size_never_read; reflexivity. Defined.

(** ** Running the handlers' building blocks *)

Section Blocks.
Variable rt : Runtime.
Variable settings : ServerSettings.

Lemma rmtree_under (d p : path) (m : FS) : under d p → rmtree d m !! p = None.
Proof.
  intros Hu. unfold rmtree. apply map_lookup_filter_None. right.
  intros x _. simpl. tauto.
Qed.

Lemma reap_last (cs : list child) (args : list string) :
  reap (length cs) (cs ++ [Child args true]) = cs ++ [Child args false].
Proof.
  unfold reap. rewrite <- (Nat.add_0_r (length cs)) at 1.
  by rewrite alter_app_r.
Qed.

Lemma with_TemporaryDirectory_inv {A} (dir : option string)
    (body : string → M A) (w w' : World) (r : result A) :
  with_TemporaryDirectory rt dir body w = (r, w') →
  (w' = w ∧ ∃ e, r = Raise e)
  ∨ ∃ tmpdir w1,
      mkdtemp rt dir (fs w) = Ok tmpdir ∧
      fs w !! Path tmpdir = None ∧
      body tmpdir (add_tmpdir (Path tmpdir) w) = (r, w1) ∧
      w' = set_fs (rmtree (Path tmpdir)) w1.
Proof.
  unfold with_TemporaryDirectory. intros H.
  destruct (mkdtemp rt dir (fs w)) as [tmpdir|e] eqn:Hmk.
  - destruct (fs w !! Path tmpdir) eqn:Hfresh.
    + left. simplify_eq. eauto.
    + destruct (body tmpdir (add_tmpdir (Path tmpdir) w)) as [r1 w1] eqn:Hb.
      right. simplify_eq. eauto 10.
  - left. simplify_eq. eauto.
Qed.

(** What launching with redirected output and waiting comes to: either
    nothing was launched and an exception is raised, or exactly one child
    was launched, which has exited and been reaped if it finished within
    the timeout and is still running if it did not. *)
Lemma run_redirected_inv (cmd : list value) (output : path)
    (w w' : World) (r : result (process * string)) :
  run_redirected rt settings cmd output w = (r, w') →
  (children w' = children w ∧ tmpdirs w' = tmpdirs w ∧ ∃ e, r = Raise e)
  ∨ ∃ argv b,
      as_argv cmd = inr argv ∧
      exec rt argv (<[output := Data ""]> (fs w)) = Ok b ∧
      tmpdirs w' = tmpdirs w ∧
      if run_time b <? timeout settings
      then r = Ok (Process (length (children w)) b (Some output), err b) ∧
           children w' = children w ++ [Child argv false] ∧
           fs w' = <[output := Data (out b)]> (effect b (<[output := Data ""]> (fs w)))
      else r = Raise TimeoutError ∧
           children w' = children w ++ [Child argv true].
Proof.
  unfold run_redirected, bind, open_w, create_subprocess_exec,
    wait_for_communicate, ret. intros H.
  repeat case_match; simplify_eq; simpl in *; eauto.
  all: right; eexists _, _; repeat split; eauto.
  all: simpl; repeat case_match; simplify_eq; simpl in *;
    rewrite ?reap_last; eauto.
Qed.
End Blocks.

(** ** Reasoning about handler bodies

    [wp m Q w]: running [m] from [w] ends in a result and a world that
    satisfy [Q]. One rule per building block; a handler body is walked
    through by applying them in program order. *)

Definition wp {A} (m : M A) (Q : result A → World → Prop) (w : World) : Prop :=
  Q (m w).1 (m w).2.

Section Rules.
Variable rt : Runtime.
Variable settings : ServerSettings.

Lemma wp_ret {A} (a : A) Q w : Q (Ok a) w → wp (ret a) Q w.
Proof. done. Qed.

Lemma wp_raise {A} (e : exn) (Q : result A → World → Prop) w :
  Q (Raise e) w → wp (raise e) Q w.
Proof. done. Qed.

Lemma wp_bind {A B} (m : M A) (k : A → M B) Q w :
  wp m (λ r w1, match r with
                | Ok a => wp (k a) Q w1
                | Raise e => Q (Raise e) w1
                end) w →
  wp (bind m k) Q w.
Proof. unfold wp, bind. by destruct (m w) as [[a|e] w1]. Qed.

Lemma wp_if {A} (b : bool) (m1 m2 : M A) Q w :
  (if b then wp m1 Q w else wp m2 Q w) → wp (if b then m1 else m2) Q w.
Proof. by destruct b. Qed.

Lemma wp_getitem (arguments : dict) (k : string) Q w :
  match arguments !! k with
  | Some v => Q (Ok v) w
  | None => Q (Raise (KeyError k)) w
  end →
  wp (getitem arguments k) Q w.
Proof. unfold wp, getitem. by destruct (arguments !! k). Qed.

Lemma wp_mkPath (v : value) Q w :
  match v with
  | VStr s => Q (Ok (Path s)) w
  | _ => Q (Raise (TypeError (message rt (NotPathLike v)))) w
  end →
  wp (mkPath rt v) Q w.
Proof. unfold wp. by destruct v. Qed.

Lemma wp_exists (p : path) Q w :
  Q (Ok (bool_decide (is_Some (fs w !! p)))) w → wp (exists_ p) Q w.
Proof. done. Qed.

Lemma wp_stat_size (p : path) Q w :
  match fs w !! p with
  | Some n => Q (Ok (node_size n)) w
  | None => Q (Raise (OSError (message rt (NoSuchFile p)))) w
  end →
  wp (stat_size rt p) Q w.
Proof. unfold wp, stat_size. by destruct (fs w !! p). Qed.

Lemma wp_decode (b : string) Q w :
  (if valid_utf8 b then Q (Ok b) w
   else Q (Raise (UnicodeDecodeError (message rt (BadUtf8 b)))) w) →
  wp (decode rt b) Q w.
Proof. unfold wp, decode. by destruct (valid_utf8 b). Qed.

(** Reading never changes the world; its result is not looked into here. *)
Lemma wp_read_lines (p : path) Q w :
  (∀ r, (read_lines rt p w).1 = r → Q r w) → wp (read_lines rt p) Q w.
Proof.
  unfold wp, read_lines. intros H.
  repeat case_match; simpl; by apply H.
Qed.

Lemma first_missing_eq (paths : list path) (w : World) :
  first_missing paths w
  = (Ok (List.find (λ p, negb (bool_decide (is_Some (fs w !! p)))) paths), w).
Proof.
  induction paths as [|p ps IH]; [done |].
  simpl. unfold bind, exists_. simpl.
  destruct (negb _); [done | apply IH].
Qed.

Lemma wp_first_missing (paths : list path) Q w :
  Q (Ok (List.find (λ p, negb (bool_decide (is_Some (fs w !! p)))) paths)) w →
  wp (first_missing paths) Q w.
Proof. unfold wp. by rewrite first_missing_eq. Qed.

Lemma list_index_files_world (p : path) (suffixes : list string) (w : World) :
  (list_index_files rt p suffixes w).2 = w.
Proof.
  induction suffixes as [|s ss IH]; [done |].
  simpl. unfold bind, with_suffix_added, exists_, ret, raise.
  case_bool_decide; simpl; [done |].
  destruct (list_index_files rt p ss w) as [[fsx|e] w1] eqn:E; simpl in *; done.
Qed.

Lemma wp_list_index_files (p : path) (suffixes : list string) Q w :
  (∀ r, Q r w) → wp (list_index_files rt p suffixes) Q w.
Proof. unfold wp. rewrite list_index_files_world. auto. Qed.

Lemma mem_cmd_world (arguments : dict) (reference reads1 : path) (w : World) :
  (mem_cmd rt settings arguments reference reads1 w).2 = w.
Proof.
  unfold mem_cmd, bind, getitem, mkPath, exists_, ret, raise.
  repeat case_match; simplify_eq; simpl in *; done.
Qed.

Lemma wp_mem_cmd (arguments : dict) (reference reads1 : path) Q w :
  (∀ r, Q r w) → wp (mem_cmd rt settings arguments reference reads1) Q w.
Proof. unfold wp. rewrite mem_cmd_world. auto. Qed.

Lemma wp_create_subprocess_exec (cmd : list value) (stdout : option path) Q w :
  match as_argv cmd with
  | inl v => Q (Raise (TypeError (message rt (NotAnArgument v)))) w
  | inr args =>
      match exec rt args (fs w) with
      | Raise e => Q (Raise e) w
      | Ok b => Q (Ok (Process (length (children w)) b stdout))
                  (set_children (λ cs, cs ++ [Child args true]) w)
      end
  end →
  wp (create_subprocess_exec rt cmd stdout) Q w.
Proof.
  unfold wp, create_subprocess_exec.
  destruct (as_argv cmd); [done |]. by destruct (exec rt _ _).
Qed.

Lemma wp_wait_for_communicate (p : process) (t : Z) Q w :
  (if run_time (beh p) <? t
   then Q (Ok (out (beh p), err (beh p)))
          (set_children (reap (pid p))
             (set_fs (λ m, write_stdout p (effect (beh p) m)) w))
   else Q (Raise TimeoutError) w) →
  wp (wait_for_communicate p t) Q w.
Proof. unfold wp, wait_for_communicate. by destruct (_ <? _). Qed.

Lemma wp_run_redirected (cmd : list value) (output : path) Q w :
  (∀ e w', children w' = children w → tmpdirs w' = tmpdirs w → Q (Raise e) w') →
  (∀ args b w',
     exec rt args (<[output := Data ""]> (fs w)) = Ok b →
     as_argv cmd = inr args →
     (run_time b <? timeout settings) = true →
     tmpdirs w' = tmpdirs w →
     children w' = children w ++ [Child args false] →
     fs w' = <[output := Data (out b)]> (effect b (<[output := Data ""]> (fs w))) →
     Q (Ok (Process (length (children w)) b (Some output), err b)) w') →
  (∀ args b w',
     exec rt args (<[output := Data ""]> (fs w)) = Ok b →
     as_argv cmd = inr args →
     (run_time b <? timeout settings) = false →
     tmpdirs w' = tmpdirs w →
     children w' = children w ++ [Child args true] →
     Q (Raise TimeoutError) w') →
  wp (run_redirected rt settings cmd output) Q w.
Proof.
  intros Hfail Hrun Hslow. unfold wp.
  destruct (run_redirected rt settings cmd output w) as [r w'] eqn:E.
  apply run_redirected_inv in E as [(Hc & Ht & e & ->)|(args & b & Ha & Hx & Ht & H)].
  - by apply Hfail.
  - simpl. destruct (run_time b <? timeout settings) eqn:Hlt.
    + destruct H as (-> & ? & ?). by eapply Hrun.
    + destruct H as (-> & ?). by eapply Hslow.
Qed.

Lemma wp_with_TemporaryDirectory {A} (dir : option string)
    (body : string → M A) Q w :
  (∀ e, Q (Raise e) w) →
  (∀ tmpdir,
     mkdtemp rt dir (fs w) = Ok tmpdir →
     fs w !! Path tmpdir = None →
     wp (body tmpdir) (λ r w1, Q r (set_fs (rmtree (Path tmpdir)) w1))
       (add_tmpdir (Path tmpdir) w)) →
  wp (with_TemporaryDirectory rt dir body) Q w.
Proof.
  intros Hfail Hbody. unfold wp.
  destruct (with_TemporaryDirectory rt dir body w) as [r w'] eqn:E.
  apply with_TemporaryDirectory_inv in E
    as [(-> & e & ->)|(tmpdir & w1 & Hmk & Hfresh & Hb & ->)].
  - apply Hfail.
  - specialize (Hbody tmpdir Hmk Hfresh). unfold wp in Hbody.
    by rewrite Hb in Hbody.
Qed.

(** The handler wrapper: a raised exception becomes the generic error
    response and a log line. *)
Lemma wp_try_except (what : string) (body : M (list content))
    (Q : response → Prop) w :
  wp body (λ r w', match r with
                   | Ok c => Q (c, w')
                   | Raise e =>
                       Q ([ErrorContent ("Error: " +:+ exn_str e)],
                          add_log ("Error in BWA " +:+ what +:+ ": " +:+ exn_str e) w')
                   end) w →
  Q (try_except what body w).
Proof. unfold wp, try_except. by destruct (body w) as [[c|e] w']. Qed.
End Rules.

Ltac wp_step :=
  lazymatch goal with
  | |- wp (bind _ _) _ _ => apply wp_bind
  | |- wp (ret _) _ _ => apply wp_ret
  | |- wp (raise _) _ _ => apply wp_raise
  | |- wp (getitem _ _) _ _ => apply wp_getitem
  | |- wp (mkPath _ _) _ _ => apply wp_mkPath
  | |- wp (exists_ _) _ _ => apply wp_exists
  | |- wp (stat_size _ _) _ _ => apply wp_stat_size
  | |- wp (decode _ _) _ _ => apply wp_decode
  | |- wp (first_missing _) _ _ => apply wp_first_missing
  | |- wp (create_subprocess_exec _ _ _) _ _ => apply wp_create_subprocess_exec
  | |- wp (wait_for_communicate _ _) _ _ => apply wp_wait_for_communicate
  | |- wp (if _ then _ else _) _ _ => apply wp_if
  | |- wp (match ?x with _ => _ end) _ _ => destruct x eqn:?
  | |- match ?x with _ => _ end => destruct x eqn:?
  end; cbv beta iota.

(** Walks through the part of a body that only reads. *)
Ltac wp_reads := repeat wp_step.

(** Enters a handler: the goal is a property of [try_except what body w]. *)
Ltac wp_handler :=
  lazymatch goal with
  | |- ?Q (try_except ?what ?body ?w) =>
      apply (wp_try_except what body Q w); cbv beta
  end.

(** Cases on which handler, if any, [call_tool] dispatches to. *)
Ltac dispatch :=
  unfold call_tool, handlers;
  repeat (case_bool_decide; simplify_eq); cbv beta iota.

(** ** The name of an operation in messages *)

#[global] Arguments Path : simpl never.
#[global] Arguments path_str : simpl never.
#[global] Arguments joinpath : simpl never.
#[global] Arguments py_str : simpl never.
#[global] Arguments fmt_thousands : simpl never.

Definition tool_label (name : string) : string :=
  if bool_decide (name = "bwa_index") then "index"
  else if bool_decide (name = "bwa_mem") then "mem"
  else if bool_decide (name = "bwa_aln") then "aln"
  else if bool_decide (name = "bwa_samse") then "samse"
  else "sampe".

(** ** What a call does with the child it launches *)

Section Launch.
Variable rt : Runtime.
Variable settings : ServerSettings.

(** The call launched exactly one child, with behaviour [b]; it outlived
    the timeout and is still running, the response being the generic
    error for [TimeoutError], or it finished in time and was reaped, a
    non-zero exit status being reported with the decoded diagnostics, or
    as a decoding fault when they are not UTF-8. *)
Definition launched (label : string) (w : World) (r : response) : Prop :=
  ∃ argv m b,
    exec rt argv m = Ok b ∧
    if run_time b <? timeout settings
    then children r.2 = children w ++ [Child argv false] ∧
         (returncode b ≠ 0 →
          r.1 = [ErrorContent
                   (if valid_utf8 (err b)
                    then "BWA " +:+ label +:+ " failed: " +:+ err b
                    else "Error: " +:+ message rt (BadUtf8 (err b)))])
    else children r.2 = children w ++ [Child argv true] ∧
         r.1 = [ErrorContent ("Error: " +:+ exn_str TimeoutError)].

Definition launch_post (label : string) (w : World) (r : response) : Prop :=
  children r.2 = children w ∨ launched label w r.

(** Closes a leaf of a walk in which no child was launched. *)
Ltac no_child := left; simpl in *; congruence.

(** Closes a leaf of a walk in which one child, [b], was launched. *)
Ltac one_child :=
  right;
  lazymatch goal with
  | H : exec _ ?args _ = Ok ?b |- _ => eexists args, _, b; split; [exact H |]
  end;
  simpl in *; rewrite ?reap_last;
  repeat match goal with
         | H : (_ <? _) = _ |- _ => rewrite H in *
         | H : valid_utf8 _ = _ |- _ => rewrite H in *
         end;
  cbv beta iota in *;
  split; [congruence |]; try reflexivity;
  intros Hrc; try reflexivity;
  exfalso; apply Hrc;
  match goal with H : negb (_ =? 0) = false |- _ =>
    apply negb_false_iff in H; by apply Z.eqb_eq in H end.

(** The part all four file-producing handlers share: from the launch to
    the response. *)
Ltac tail_launch :=
  apply wp_with_TemporaryDirectory; [intros e; no_child |];
  intros tmpdir Hmk Hfresh;
  repeat lazymatch goal with
         | |- wp (bind (mem_cmd _ _ _ _ _) _) _ _ =>
             apply wp_bind, wp_mem_cmd; intros [cmd|e]; [| no_child]
         end;
  apply wp_bind, wp_run_redirected;
  [ intros e w' Hc Ht; no_child
  | intros args b w' Hx Ha Hlt Ht Hc Hfs; cbv beta iota
  | intros args b w' Hx Ha Hlt Ht Hc; one_child ].

Lemma run_aln_launch (arguments : dict) (w : World) :
  launch_post "aln" w (_run_aln rt settings arguments w).
Proof.
  unfold _run_aln. wp_handler. unfold run_aln_body. wp_reads.
  all: try no_child.
  tail_launch. wp_reads.
  all: one_child.
Qed.

Lemma run_samse_launch (arguments : dict) (w : World) :
  launch_post "samse" w (_run_samse rt settings arguments w).
Proof.
  unfold _run_samse. wp_handler. unfold run_samse_body. wp_reads.
  all: try no_child.
  tail_launch. wp_reads.
  all: one_child.
Qed.

Lemma run_sampe_launch (arguments : dict) (w : World) :
  launch_post "sampe" w (_run_sampe rt settings arguments w).
Proof.
  unfold _run_sampe. wp_handler. unfold run_sampe_body. wp_reads.
  all: try no_child.
  tail_launch. wp_reads.
  all: one_child.
Qed.

Lemma run_mem_launch (arguments : dict) (w : World) :
  launch_post "mem" w (_run_mem rt settings arguments w).
Proof.
  unfold _run_mem. wp_handler. unfold run_mem_body. wp_reads.
  all: try no_child.
  tail_launch. wp_reads.
  all: try (apply wp_read_lines; intros [lines|e] _; cbv beta iota;
            try apply wp_ret).
  all: one_child.
Qed.

Lemma run_index_launch (arguments : dict) (w : World) :
  launch_post "index" w (_run_index rt settings arguments w).
Proof.
  unfold _run_index. wp_handler. unfold run_index_body. wp_reads.
  all: try no_child.
  all: try (apply wp_list_index_files; intros [files|e]; cbv beta iota;
            try apply wp_ret).
  all: one_child.
Qed.

(** Every call either launches no child or launches exactly one and
    treats it as [launched] says. *)
Lemma call_tool_launch (name : string) (arguments : dict) (w : World) :
  launch_post (tool_label name) w (call_tool rt settings name arguments w).
Proof.
  unfold tool_label. dispatch.
  - apply run_index_launch.
  - apply run_mem_launch.
  - apply run_aln_launch.
  - apply run_samse_launch.
  - apply run_sampe_launch.
  - by left.
Qed.
End Launch.

(** ** Timeouts *)

(** The mem-align call of the scenario with a child that needs 5000 seconds
    under a timeout of 3600: after the call the child is still running,
    and the response is the one the catch-all clause gives for any
    exception whose message is empty. *)
Lemma timeout_child_left_running :
  let w := Scenario.world in
  let r := call_tool (Scenario.runtime Scenario.slow) default_settings
             "bwa_mem" Scenario.mem_args w in
  timeout default_settings < run_time Scenario.slow
  ∧ ¬ (∀ c, c ∈ children r.2 → running c = false)
  ∧ r.1 = (try_except "mem" (raise (OSError "")) w).1.
Proof.
  split; [reflexivity |]. split; [| by vm_compute].
  intros H.
  specialize (H (Child ["bwa"; "mem"; "-t"; "4"; "-k"; "19"; "-w"; "100";
                        "/data/ref.fa"; "/data/r1.fq"] true)).
  assert (true = false) as E; [| discriminate E].
  apply H. vm_compute. left.
Qed.

(** C2: for every operation, if every child the runtime can
    launch needs longer than the configured timeout, then a call either
    launches nothing, or launches one child that is still running when the
    call returns (no termination is requested), and returns the catch-all
    error response for [TimeoutError], the same form any other runtime
    fault takes; its text is not of the non-zero-exit form. *)
Theorem timeout_reported_as_generic_fault (rt : Runtime)
    (settings : ServerSettings) (name : string) (arguments : dict) (w : World) :
  (∀ args m b, exec rt args m = Ok b → timeout settings < run_time b) →
  let r := call_tool rt settings name arguments w in
  children r.2 = children w
  ∨ (∃ args, children r.2 = children w ++ [Child args true])
    ∧ r.1 = [ErrorContent ("Error: " +:+ exn_str TimeoutError)]
    ∧ ∀ diagnostics,
        r.1 ≠ [ErrorContent ("BWA " +:+ tool_label name +:+ " failed: " +:+ diagnostics)].
Proof.
  intros Hslow r.
  destruct (call_tool_launch rt settings name arguments w)
    as [Hnone|(args & m & b & Hx & H)]; [by left | right].
  fold r in H. apply Hslow in Hx.
  destruct (run_time b <? timeout settings) eqn:Hlt; [apply Z.ltb_lt in Hlt; lia |].
  destruct H as [Hc Hr]. refine (conj _ (conj Hr _)); [eauto |].
  intros d. rewrite Hr. intros [= E].
Qed.

Lemma timeout_reported_as_generic_fault_witness :
  let w := Scenario.world in
  let r := call_tool (Scenario.runtime Scenario.slow) default_settings
             "bwa_aln" (<["reads" := VStr "/data/r1.fq"]> Scenario.mem_args) w in
  children r.2 = children w
  ∨ (∃ args, children r.2 = children w ++ [Child args true])
    ∧ r.1 = [ErrorContent ("Error: " +:+ exn_str TimeoutError)]
    ∧ ∀ diagnostics,
        r.1 ≠ [ErrorContent ("BWA " +:+ tool_label "bwa_aln" +:+ " failed: " +:+ diagnostics)].
Proof.
  apply timeout_reported_as_generic_fault.
  intros args m b [= <-]. simpl. lia.
Defined.

(** ** Non-zero exit *)

(** A failing child whose diagnostics are the byte 0xFF: the error text
    does not contain that byte. *)
Lemma nonzero_exit_garbled_diagnostics :
  let r := call_tool (Scenario.runtime Scenario.garbled) default_settings
             "bwa_mem" Scenario.mem_args Scenario.world in
  returncode Scenario.garbled ≠ 0
  ∧ ∃ text, r.1 = [ErrorContent text] ∧ ¬ contains text (err Scenario.garbled).
Proof.
  split; [done |]. eexists. split; [by vm_compute |].
  intros Hc. apply (contains_chars _ _ "255"%char) in Hc; [| by left].
  revert Hc. apply (bool_decide_unpack _). by vm_compute.
Qed.

(** C6: for every operation, if every child the runtime can
    launch exits within the timeout with a non-zero status, then a call
    either launches nothing, or launches one child, reaps it, and returns
    an error: when the captured standard error is valid UTF-8 the text is
    [BWA <op> failed: ] followed by exactly those bytes; when it is not,
    the text is the catch-all error for the decoding fault. *)
Theorem nonzero_exit_reports_decoded_stderr (rt : Runtime)
    (settings : ServerSettings) (name : string) (arguments : dict) (w : World) :
  (∀ args m b, exec rt args m = Ok b →
     run_time b < timeout settings ∧ returncode b ≠ 0) →
  let r := call_tool rt settings name arguments w in
  children r.2 = children w
  ∨ ∃ args m b,
      exec rt args m = Ok b
      ∧ children r.2 = children w ++ [Child args false]
      ∧ r.1 = [ErrorContent
                 (if valid_utf8 (err b)
                  then "BWA " +:+ tool_label name +:+ " failed: " +:+ err b
                  else "Error: " +:+ message rt (BadUtf8 (err b)))]
      ∧ (valid_utf8 (err b) = true →
         ∃ text, r.1 = [ErrorContent text] ∧ contains text (err b)).
Proof.
  intros Hfail r.
  destruct (call_tool_launch rt settings name arguments w)
    as [Hnone|(args & m & b & Hx & H)]; [by left | right].
  fold r in H. destruct (Hfail _ _ _ Hx) as [Hlt Hrc].
  apply Z.ltb_lt in Hlt. rewrite Hlt in H. destruct H as [Hc Hr].
  specialize (Hr Hrc). exists args, m, b. repeat split; try done.
  intros Hv. rewrite Hv in Hr. eexists. split; [exact Hr |].
  rewrite <- !string_app_assoc. apply contains_suffix.
Qed.

Lemma nonzero_exit_reports_decoded_stderr_witness :
  let w := Scenario.world in
  let rt := Scenario.runtime Scenario.failing in
  let r := call_tool rt default_settings "bwa_index" Scenario.index_args w in
  children r.2 = children w
  ∨ ∃ args m b,
      exec rt args m = Ok b
      ∧ children r.2 = children w ++ [Child args false]
      ∧ r.1 = [ErrorContent
                 (if valid_utf8 (err b)
                  then "BWA " +:+ tool_label "bwa_index" +:+ " failed: " +:+ err b
                  else "Error: " +:+ message rt (BadUtf8 (err b)))]
      ∧ (valid_utf8 (err b) = true →
         ∃ text, r.1 = [ErrorContent text] ∧ contains text (err b)).
Proof.
  apply nonzero_exit_reports_decoded_stderr.
  intros args m b [= <-]. simpl. split; [lia | done].
Defined.

(** Walks through a whole handler body, naming nothing. *)
Ltac wp_any :=
  first
    [ wp_step
    | apply wp_with_TemporaryDirectory; [intros ? | intros ? ? ?]
    | apply wp_run_redirected;
      [intros ? ? ? ? | intros ? ? ? ? ? ? ? ? ? | intros ? ? ? ? ? ? ? ?]
    | apply wp_mem_cmd; intros [?|?]
    | apply wp_read_lines; intros [?|?] ?
    | apply wp_list_index_files; intros [?|?] ];
  cbv beta iota.

Ltac wp_walk := repeat wp_any.

(** ** Every call is answered *)

Definition one_content (r : response) : Prop := ∃ c, r.1 = [c].

(** [handler] answers a fault of [body] with the catch-all error response
    and a log line. *)
Definition contains_faults (what : string) (body : M (list content))
    (handler : World → response) : Prop :=
  ∀ w e w',
    body w = (Raise e, w') →
    handler w = ([ErrorContent ("Error: " +:+ exn_str e)],
                 add_log ("Error in BWA " +:+ what +:+ ": " +:+ exn_str e) w').

Lemma try_except_contains_faults (what : string) (body : M (list content)) :
  contains_faults what body (try_except what body).
Proof. intros w e w' H. unfold try_except. by rewrite H. Qed.

(** C5: [call_tool] answers every call with exactly one content value; a
    name that is none of the five operations is answered with an error
    naming it, the world untouched; and each handler answers any exception
    its body raises with the catch-all error response carrying the
    exception's message. *)
Theorem call_tool_always_responds (rt : Runtime) (settings : ServerSettings)
    (name : string) (arguments : dict) (w : World) :
  one_content (call_tool rt settings name arguments w)
  ∧ (handlers rt settings name = None →
     call_tool rt settings name arguments w
     = ([ErrorContent ("Unknown tool: " +:+ name)], w))
  ∧ contains_faults "index" (run_index_body rt settings arguments)
      (_run_index rt settings arguments)
  ∧ contains_faults "mem" (run_mem_body rt settings arguments)
      (_run_mem rt settings arguments)
  ∧ contains_faults "aln" (run_aln_body rt settings arguments)
      (_run_aln rt settings arguments)
  ∧ contains_faults "samse" (run_samse_body rt settings arguments)
      (_run_samse rt settings arguments)
  ∧ contains_faults "sampe" (run_sampe_body rt settings arguments)
      (_run_sampe rt settings arguments).
Proof.
  split; [| split; [| repeat split; apply try_except_contains_faults]].
  - dispatch.
    + unfold _run_index. wp_handler. unfold run_index_body.
      wp_walk; by eexists.
    + unfold _run_mem. wp_handler. unfold run_mem_body.
      wp_walk; by eexists.
    + unfold _run_aln. wp_handler. unfold run_aln_body.
      wp_walk; by eexists.
    + unfold _run_samse. wp_handler. unfold run_samse_body.
      wp_walk; by eexists.
    + unfold _run_sampe. wp_handler. unfold run_sampe_body.
      wp_walk; by eexists.
    + by eexists.
  - intros H. unfold call_tool. by rewrite H.
Qed.

Lemma call_tool_always_responds_witness :
  let rt := Scenario.runtime Scenario.good in
  call_tool rt default_settings "bwa_view" ∅ Scenario.world
  = ([ErrorContent "Unknown tool: bwa_view"], Scenario.world)
  ∧ _run_index rt default_settings ∅ Scenario.world
    = ([ErrorContent "Error: 'reference_fasta'"],
       add_log "Error in BWA index: 'reference_fasta'" Scenario.world).
Proof.
  pose proof (call_tool_always_responds (Scenario.runtime Scenario.good)
                default_settings "bwa_view" ∅ Scenario.world)
    as (_ & Hunknown & Hindex & _).
  split.
  - apply Hunknown. reflexivity.
  - apply (Hindex Scenario.world (KeyError "reference_fasta")). reflexivity.
Defined.

(** ** The temporary directory *)

(** The directories [tempfile] created during the call are those the call
    appended to the history [tmpdirs]. Each of them is gone when the call
    returns, with all that was under it, whether or not a directory of that
    name had been created (and removed) by an earlier call. *)
Definition tmp_removed (w : World) (r : response) : Prop :=
  ∀ created d, tmpdirs r.2 = tmpdirs w ++ created → d ∈ created →
    ∀ p, under d p → fs r.2 !! p = None.

Lemma app_self_nil {A : Type} (l k : list A) : l = l ++ k → k = [].
Proof. intros H. apply (app_inv_head l). by rewrite List.app_nil_r, <- H. Qed.

Ltac tmp_leaf :=
  let created := fresh "created" in
  let d := fresh "d" in
  let Hc := fresh "Hc" in
  let Hin := fresh "Hin" in
  let q := fresh "q" in
  let Hq := fresh "Hq" in
  unfold tmp_removed; simpl; intros created d;
  repeat match goal with
         | H : tmpdirs _ = _ |- _ => rewrite H; clear H
         end;
  simpl; intros Hc Hin q Hq;
  first
    [ apply app_self_nil in Hc; subst created; by apply elem_of_nil in Hin
    | apply app_inv_head in Hc; subst created;
      apply list_elem_of_singleton in Hin; subst d; by apply rmtree_under ].

(** C8: whatever the operation, the arguments, the state of the world and
    the behaviour of the runtime (pre-flight error, launch failure, non-zero
    exit, timeout, any fault raised on the way, success), every directory
    [tempfile] created during the call, that is every entry [created] the
    call added to the history of created directories, is absent when the
    call returns, and so is everything below it. Nothing is assumed about
    the names [tempfile] hands out: the directory may bear the name of one
    an earlier call created. *)
Theorem temporary_directory_removed (rt : Runtime) (settings : ServerSettings)
    (name : string) (arguments : dict) (w : World) (created : list path)
    (d p : path) :
  let r := call_tool rt settings name arguments w in
  tmpdirs r.2 = tmpdirs w ++ created → d ∈ created → under d p →
  fs r.2 !! p = None.
Proof.
  intros r. revert created d p.
  cut (tmp_removed w r); [unfold tmp_removed; naive_solver |].
  subst r. dispatch.
  - unfold _run_index. wp_handler. unfold run_index_body. wp_walk; tmp_leaf.
  - unfold _run_mem. wp_handler. unfold run_mem_body. wp_walk; tmp_leaf.
  - unfold _run_aln. wp_handler. unfold run_aln_body. wp_walk; tmp_leaf.
  - unfold _run_samse. wp_handler. unfold run_samse_body. wp_walk; tmp_leaf.
  - unfold _run_sampe. wp_handler. unfold run_sampe_body. wp_walk; tmp_leaf.
  - tmp_leaf.
Qed.

(** A second call in a world where an earlier call already used (and
    removed) the directory [tempfile] hands out again. *)
Lemma temporary_directory_removed_witness :
  let w0 := Scenario.world in
  let w := (call_tool (Scenario.runtime Scenario.good) default_settings
              "bwa_mem" Scenario.mem_args w0).2 in
  let r := call_tool (Scenario.runtime Scenario.slow) default_settings
             "bwa_mem" Scenario.mem_args w in
  tmpdirs w = [Path "/tmp/tmpk3x9"]
  ∧ tmpdirs r.2 = tmpdirs w ++ [Path "/tmp/tmpk3x9"]
  ∧ fs r.2 !! Path "/tmp/tmpk3x9" = None
  ∧ fs r.2 !! joinpath (Path "/tmp/tmpk3x9") "alignment.sam" = None.
Proof.
  split; [by vm_compute |].
  split; [by vm_compute |].
  split.
  - apply (temporary_directory_removed (Scenario.runtime Scenario.slow)
             default_settings "bwa_mem" Scenario.mem_args
             (call_tool (Scenario.runtime Scenario.good) default_settings
                "bwa_mem" Scenario.mem_args Scenario.world).2
             [Path "/tmp/tmpk3x9"] (Path "/tmp/tmpk3x9") (Path "/tmp/tmpk3x9")).
    + by vm_compute.
    + left.
    + split; [done |]. by exists [].
  - apply (temporary_directory_removed (Scenario.runtime Scenario.slow)
             default_settings "bwa_mem" Scenario.mem_args
             (call_tool (Scenario.runtime Scenario.good) default_settings
                "bwa_mem" Scenario.mem_args Scenario.world).2
             [Path "/tmp/tmpk3x9"] (Path "/tmp/tmpk3x9")).
    + by vm_compute.
    + left.
    + split; [done |]. by exists ["alignment.sam"].
Defined.

(** ** The output file named in a success response *)

Definition output_name (name : string) : string :=
  if bool_decide (name = "bwa_aln") then "alignment.sai" else "alignment.sam".

(** The text of a success response up to the output path. *)
Definition success_header (name : string) : string :=
  if bool_decide (name = "bwa_mem")
  then "BWA-MEM alignment completed!" +:+ nl +:+ nl +:+ "Output file: "
  else if bool_decide (name = "bwa_aln")
  then "BWA aln completed!" +:+ nl +:+ nl +:+ "Output SAI file: "
  else "BWA " +:+ tool_label name +:+ " completed!" +:+ nl +:+ nl +:+ "Output SAM file: ".

Lemma under_joinpath (d : path) (s : string) : root_of s = "" → under d (joinpath d s).
Proof.
  intros H. unfold joinpath. rewrite H. split; [done |].
  by apply prefix_app_r.
Qed.

Lemma under_refl (d : path) : under d d.
Proof. by split. Qed.

(** *** [Path(str(p))] is [p] *)

Definition no_slash (x : string) : bool :=
  forallb (λ a, negb (bool_decide (a = "/"%char))) (list_ascii_of_string x).

(** A path as [Path] builds them. *)
Definition normal (p : path) : Prop :=
  (p.1 = "" ∨ p.1 = "/" ∨ p.1 = "//")
  ∧ Forall (λ x, is_part x = true ∧ no_slash x = true) p.2.

Lemma split_sep_cons (c a : ascii) (r : string) :
  split_sep c (String a r)
  = if bool_decide (a = c) then "" :: split_sep c r
    else match split_sep c r with
         | [] => [String a EmptyString]
         | x :: xs => String a x :: xs
         end.
Proof. reflexivity. Qed.

Lemma split_sep_no_slash (s : string) :
  Forall (λ x, no_slash x = true) (split_sep "/"%char s).
Proof.
  induction s as [|a r IH]; simpl.
  - by repeat constructor.
  - case_bool_decide as Ha.
    + by constructor.
    + destruct (split_sep "/"%char r) as [|x xs].
      { constructor; [| constructor]. unfold no_slash. simpl.
        by rewrite bool_decide_eq_false_2. }
      apply Forall_cons in IH as [Hx Hxs]. constructor; [| done].
      unfold no_slash in *. simpl. rewrite Hx.
      by rewrite bool_decide_eq_false_2.
Qed.

Lemma no_slash_cons (a : ascii) (r : string) :
  no_slash (String a r) = true → bool_decide (a = "/"%char) = false ∧ no_slash r = true.
Proof.
  unfold no_slash. simpl. intros [Ha Hr]%andb_true_iff.
  by apply negb_true_iff in Ha.
Qed.

Lemma split_sep_whole (x : string) :
  no_slash x = true → split_sep "/"%char x = [x].
Proof.
  induction x as [|a r IH]; [done |].
  intros [Ha Hr]%no_slash_cons.
  by rewrite split_sep_cons, Ha, (IH Hr).
Qed.

Lemma split_sep_app (x t : string) :
  no_slash x = true →
  split_sep "/"%char (x +:+ "/" +:+ t) = x :: split_sep "/"%char t.
Proof.
  induction x as [|a r IH]; [done |].
  intros [Ha Hr]%no_slash_cons.
  rewrite (app_cons a r), split_sep_cons, Ha.
  by rewrite (IH Hr).
Qed.

Lemma split_sep_join (ps : list string) :
  ps ≠ [] →
  Forall (λ x, no_slash x = true) ps →
  split_sep "/"%char (join "/" ps) = ps.
Proof.
  induction ps as [|x [|y r] IH]; [done | |]; intros _ H.
  - apply split_sep_whole. by apply Forall_cons in H as [? _].
  - apply Forall_cons in H as [Hx H].
    change (join "/" (x :: y :: r)) with (x +:+ "/" +:+ join "/" (y :: r)).
    rewrite split_sep_app by done. f_equal. by apply IH.
Qed.

Lemma filter_is_part (ps : list string) :
  Forall (λ x, is_part x = true) ps → List.filter is_part ps = ps.
Proof.
  induction 1 as [|x r Hx _ IH]; simpl; [done |]. by rewrite Hx, IH.
Qed.

Lemma Path_normal (s : string) : normal (Path s).
Proof.
  split.
  - unfold Path, root_of. simpl.
    destruct s as [|a [|b [|c r]]]; repeat case_bool_decide; tauto.
  - unfold Path. simpl. pose proof (split_sep_no_slash s) as H.
    induction H as [|x r Hx _ IH]; simpl; [constructor |].
    destruct (is_part x) eqn:Hp; [by constructor | done].
Qed.

Lemma joinpath_normal (p : path) (s : string) : normal p → normal (joinpath p s).
Proof.
  intros [Hr Hp]. unfold joinpath.
  destruct (root_of s) eqn:E; [| apply Path_normal].
  split; [done |]. simpl. apply Forall_app. split; [done |].
  apply (Path_normal s).
Qed.

Lemma root_of_cons (a : ascii) (r : string) : a ≠ "/"%char → root_of (String a r) = "".
Proof.
  intros Ha. unfold root_of.
  destruct r as [|b [|c r]]; by rewrite bool_decide_eq_false_2.
Qed.

Lemma part_head (x : string) :
  is_part x = true → no_slash x = true → ∃ a r, x = String a r ∧ a ≠ "/"%char.
Proof.
  destruct x as [|a r]; [done |]. intros _. unfold no_slash. simpl.
  intros [Ha _]%andb_true_iff. apply negb_true_iff, bool_decide_eq_false in Ha.
  eauto.
Qed.

Lemma join_head (x : string) (ps : list string) :
  is_part x = true → no_slash x = true →
  ∃ a r, join "/" (x :: ps) = String a r ∧ a ≠ "/"%char.
Proof.
  intros Hp Hn. destruct (part_head x Hp Hn) as (a & r & -> & Ha).
  destruct ps as [|y ps]; simpl; [eauto |].
  rewrite app_cons. eauto.
Qed.

Lemma path_str_cons (root x : string) (ps : list string) :
  path_str (root, x :: ps) = root +:+ join "/" (x :: ps).
Proof. by destruct root. Qed.

(** Parsing the string of a normal path gives the path back. *)
Lemma Path_path_str (p : path) : normal p → Path (path_str p) = p.
Proof.
  destruct p as [root ps]. intros [Hroot Hps]. simpl in Hroot, Hps.
  assert (Forall (λ x, no_slash x = true) ps) as Hns.
  { eapply Forall_impl; [exact Hps |]. by intros x [_ ?]. }
  assert (Forall (λ x, is_part x = true) ps) as Hip.
  { eapply Forall_impl; [exact Hps |]. by intros x [? _]. }
  destruct ps as [|x ps].
  - destruct Hroot as [->|[->| ->]]; reflexivity.
  - apply Forall_cons in Hps as [[Hp Hn] _].
    destruct (join_head x ps Hp Hn) as (a & r & Hj & Ha).
    pose proof (split_sep_join (x :: ps) ltac:(done) Hns) as Hsplit.
    rewrite path_str_cons. unfold Path.
    destruct Hroot as [->|[->| ->]].
    + rewrite app_nil_l, Hsplit, filter_is_part by done.
      by rewrite Hj, root_of_cons.
    + change ("/" +:+ join "/" (x :: ps)) with (String "/"%char (join "/" (x :: ps))).
      rewrite split_sep_cons, bool_decide_eq_true_2 by done.
      rewrite Hsplit. f_equal.
      * rewrite Hj. unfold root_of.
        destruct r as [|b r]; rewrite bool_decide_eq_true_2 by done;
          by rewrite bool_decide_eq_false_2.
      * change (List.filter is_part ("" :: x :: ps))
          with (List.filter is_part (x :: ps)).
        by rewrite filter_is_part.
    + change ("//" +:+ join "/" (x :: ps))
        with (String "/"%char (String "/"%char (join "/" (x :: ps)))).
      rewrite !split_sep_cons, !bool_decide_eq_true_2 by done.
      rewrite Hsplit. f_equal.
      * rewrite Hj. unfold root_of.
        rewrite !bool_decide_eq_true_2 by done.
        by rewrite bool_decide_eq_false_2.
      * change (List.filter is_part ("" :: "" :: x :: ps))
          with (List.filter is_part (x :: ps)).
        by rewrite filter_is_part.
Qed.

Lemma output_path_str (tmpdir file : string) :
  Path (path_str (joinpath (Path tmpdir) file)) = joinpath (Path tmpdir) file.
Proof. apply Path_path_str, joinpath_normal, Path_normal. Qed.

Section Output.
Variable rt : Runtime.
Variable settings : ServerSettings.

Definition output_gone (file header : string) (w : World) (r : response) : Prop :=
  ∀ text, r.1 = [TextContent text] →
    ∃ tmpdir,
      mkdtemp rt (temp_dir settings) (fs w) = Ok tmpdir
      ∧ tmpdirs r.2 = tmpdirs w ++ [Path tmpdir]
      ∧ (∃ rest, text = header +:+ path_str (joinpath (Path tmpdir) file) +:+ rest)
      ∧ Path (path_str (joinpath (Path tmpdir) file)) = joinpath (Path tmpdir) file
      ∧ under (Path tmpdir) (joinpath (Path tmpdir) file)
      ∧ fs r.2 !! joinpath (Path tmpdir) file = None
      ∧ fs r.2 !! Path tmpdir = None.

Ltac not_success :=
  let t := fresh "t" in
  let H := fresh "H" in
  intros t H; simpl in H; discriminate H.

Ltac success_leaf :=
  let t := fresh "t" in
  let H := fresh "H" in
  intros t H; simpl in H; injection H as <-;
  eexists; split; [eassumption |];
  split;
  [ simpl; match goal with H : tmpdirs _ = _ |- _ => by rewrite H end |];
  split; [eexists; reflexivity |];
  split; [apply output_path_str |];
  split; [by apply under_joinpath |];
  split; simpl; apply rmtree_under;
  [by apply under_joinpath | apply under_refl].

Lemma run_mem_output (arguments : dict) (w : World) :
  output_gone "alignment.sam" (success_header "bwa_mem") w
    (_run_mem rt settings arguments w).
Proof.
  unfold _run_mem. wp_handler. unfold run_mem_body.
  wp_walk; try not_success. success_leaf.
Qed.

Lemma run_aln_output (arguments : dict) (w : World) :
  output_gone "alignment.sai" (success_header "bwa_aln") w
    (_run_aln rt settings arguments w).
Proof.
  unfold _run_aln. wp_handler. unfold run_aln_body.
  wp_walk; try not_success. success_leaf.
Qed.

Lemma run_samse_output (arguments : dict) (w : World) :
  output_gone "alignment.sam" (success_header "bwa_samse") w
    (_run_samse rt settings arguments w).
Proof.
  unfold _run_samse. wp_handler. unfold run_samse_body.
  wp_walk; try not_success. success_leaf.
Qed.

Lemma run_sampe_output (arguments : dict) (w : World) :
  output_gone "alignment.sam" (success_header "bwa_sampe") w
    (_run_sampe rt settings arguments w).
Proof.
  unfold _run_sampe. wp_handler. unfold run_sampe_body.
  wp_walk; try not_success. success_leaf.
Qed.
End Output.

(** C9: a success response of mem-align, backtrack-align, samse or sampe
    names, right after its heading, an output file inside the directory
    [tempfile] created for the call (the string names exactly that path);
    when the call returns, that directory and the named file are no longer
    in the filesystem. *)
Theorem named_output_removed (rt : Runtime) (settings : ServerSettings)
    (name : string) (arguments : dict) (w : World) (text : string) :
  name ∈ ["bwa_mem"; "bwa_aln"; "bwa_samse"; "bwa_sampe"] →
  let r := call_tool rt settings name arguments w in
  r.1 = [TextContent text] →
  ∃ tmpdir,
    let output := joinpath (Path tmpdir) (output_name name) in
    mkdtemp rt (temp_dir settings) (fs w) = Ok tmpdir
    ∧ tmpdirs r.2 = tmpdirs w ++ [Path tmpdir]
    ∧ (∃ rest, text = success_header name +:+ path_str output +:+ rest)
    ∧ Path (path_str output) = output
    ∧ under (Path tmpdir) output
    ∧ fs r.2 !! output = None
    ∧ fs r.2 !! Path tmpdir = None.
Proof.
  intros Hname r Hr.
  assert (output_gone rt settings (output_name name) (success_header name) w r)
    as Hgone; [| by apply Hgone].
  subst r. clear Hr. unfold call_tool, handlers.
  repeat (apply elem_of_cons in Hname as [->|Hname]); simpl.
  - apply run_mem_output.
  - apply run_aln_output.
  - apply run_samse_output.
  - apply run_sampe_output.
  - by apply elem_of_nil in Hname.
Qed.

Lemma named_output_removed_witness :
  let w := Scenario.world in
  let r := call_tool (Scenario.runtime Scenario.good) default_settings
             "bwa_mem" Scenario.mem_args w in
  ∃ text tmpdir,
    let output := joinpath (Path tmpdir) "alignment.sam" in
    r.1 = [TextContent text]
    ∧ tmpdirs r.2 = tmpdirs w ++ [Path tmpdir]
    ∧ (∃ rest, text = success_header "bwa_mem" +:+ path_str output +:+ rest)
    ∧ fs r.2 !! output = None.
Proof.
  intros w r.
  destruct (named_output_removed (Scenario.runtime Scenario.good)
              default_settings "bwa_mem" Scenario.mem_args w
              (mem_summary Scenario.mem_args
                 (joinpath (Path "/tmp/tmpk3x9") "alignment.sam") 16 2))
    as (tmpdir & _ & Ht & Hrest & _ & _ & Hgone & _).
  - apply elem_of_cons. by left.
  - by vm_compute.
  - exists (mem_summary Scenario.mem_args
              (joinpath (Path "/tmp/tmpk3x9") "alignment.sam") 16 2), tmpdir.
    split; [by vm_compute |]. exact (conj Ht (conj Hrest Hgone)).
Defined.

(** ** Counting alignment records *)

(** The lines of a file as the specification counts them: a line ends at
    a line feed, the last one at the end of the file if no line feed
    closes it. A carriage return is a character of its line like any
    other. *)
Fixpoint lf_lines (s : string) : list string :=
  match s with
  | EmptyString => []
  | String a r =>
      if bool_decide (a = LF) then nl :: lf_lines r
      else
        match lf_lines r with
        | [] => [String a EmptyString]
        | l :: ls => String a l :: ls
        end
  end.

(** Whether some carriage return of [s] is not followed by a line feed. *)
Fixpoint lone_cr (s : string) : bool :=
  match s with
  | EmptyString => false
  | String a r =>
      (bool_decide (a = CR) && negb (startswith LF r)) || lone_cr r
  end.

(** Two lines that agree on whether they are header lines. *)
Definition same_kind (l1 l2 : string) : Prop :=
  startswith "@"%char l1 = startswith "@"%char l2.

Definition records_counted (rt : Runtime) (arguments : dict) (r : response) : Prop :=
  ∀ text, r.1 = [TextContent text] →
    ∃ tmpdir args m b,
      exec rt args m = Ok b
      ∧ (let lines := text_lines (out b) in
         let N := length lines in
         let H := length (List.filter (startswith "@"%char) lines) in
         text = mem_summary arguments (joinpath (Path tmpdir) "alignment.sam")
                  (N.of_nat (String.length (out b))) (N - H)
         ∧ contains text
             ("Alignment records: " +:+ fmt_thousands (N.of_nat (N - H)) +:+ nl))
      ∧ (lone_cr (out b) = false →
         let lines := lf_lines (out b) in
         let N := length lines in
         let H := length (List.filter (startswith "@"%char) lines) in
         text = mem_summary arguments (joinpath (Path tmpdir) "alignment.sam")
                  (N.of_nat (String.length (out b))) (N - H)
         ∧ contains text
             ("Alignment records: " +:+ fmt_thousands (N.of_nat (N - H)) +:+ nl)).

Lemma mem_summary_shows_count (arguments : dict) (output : path) (size : N) (n : nat) :
  contains (mem_summary arguments output size n)
    ("Alignment records: " +:+ fmt_thousands (N.of_nat n) +:+ nl).
Proof.
  unfold mem_summary.
  exists ("BWA-MEM alignment completed!" +:+ nl +:+ nl
          +:+ "Output file: " +:+ path_str output +:+ nl
          +:+ "Output size: " +:+ fmt_thousands size +:+ " bytes" +:+ nl),
    ("Threads used: " +:+ py_str (get arguments "threads" (VInt 4)) +:+ nl
     +:+ "Paired-end: " +:+ (if truthy (arguments !! "reads2") then "Yes" else "No")).
  rewrite !string_app_assoc. reflexivity.
Qed.

(** Without a lone carriage return, text-mode reading and splitting at line
    feeds yield as many lines, header lines facing header lines. *)
Lemma text_lines_lf_lines (n : nat) (s : string) :
  (String.length s ≤ n)%nat → lone_cr s = false →
  Forall2 same_kind (text_lines s) (lf_lines s).
Proof.
  revert s. induction n as [|n IH]; intros [|a r] Hlen Hcr; simpl in Hlen;
    try (by constructor); [lia |].
  simpl in Hcr. apply orb_false_iff in Hcr as [Ha Hr].
  cbn [text_lines lf_lines].
  destruct (decide (a = LF)) as [HLF|HLF].
  - rewrite !bool_decide_eq_true_2 by done.
    constructor; [done |]. apply IH; [lia | done].
  - rewrite !(bool_decide_eq_false_2 (a = LF)) by done.
    destruct (decide (a = CR)) as [HCR|HCR].
    + rewrite (bool_decide_eq_true_2 (a = CR)) by done.
      rewrite (bool_decide_eq_true_2 (a = CR)) in Ha by done.
      destruct r as [|b r']; [done |].
      simpl in Ha, Hr, Hlen. apply negb_false_iff in Ha.
      apply bool_decide_eq_true in Ha. subst b.
      apply orb_false_iff in Hr as [_ Hr'].
      cbn [lf_lines]. rewrite !bool_decide_eq_true_2 by done.
      constructor.
      * subst a. reflexivity.
      * apply IH; [lia | done].
    + rewrite (bool_decide_eq_false_2 (a = CR)) by done.
      assert (Forall2 same_kind (text_lines r) (lf_lines r)) as Hrec
        by (apply IH; [lia | done]).
      destruct Hrec as [|l l' ls ls' Hl Hls]; constructor; try done.
Qed.

Lemma same_kind_counts (ls ls' : list string) :
  Forall2 same_kind ls ls' →
  length ls = length ls'
  ∧ length (List.filter (startswith "@"%char) ls)
    = length (List.filter (startswith "@"%char) ls').
Proof.
  induction 1 as [|l l' ls ls' Hl _ [IH1 IH2]]; [done |].
  simpl. rewrite <- Hl. destruct (startswith "@"%char l); simpl; lia.
Qed.

Lemma run_mem_records_counted (rt : Runtime) (settings : ServerSettings)
    (arguments : dict) (w : World) :
  records_counted rt arguments (_run_mem rt settings arguments w).
Proof.
  unfold _run_mem. wp_handler. unfold run_mem_body.
  wp_walk; try (intros t Ht; simpl in Ht; discriminate Ht).
  intros t Ht. simpl in Ht. injection Ht as <-.
  match goal with
  | Hfs : fs ?w' = _, Hn : fs ?w' !! _ = Some _,
    Hl : (read_lines _ _ ?w').1 = _ |- _ =>
      unfold read_lines in Hl;
      rewrite Hfs, lookup_insert_eq in Hn;
      rewrite Hfs, lookup_insert_eq in Hl;
      injection Hn as <-;
      destruct (valid_utf8 (out b)); simpl in Hl; [injection Hl as <- | discriminate Hl]
  end.
  eexists _, _, _, b. cbv zeta. split; [eassumption |].
  split.
  - rewrite <- count_records_minus. split; [reflexivity |].
    apply mem_summary_shows_count.
  - intros Hcr.
    destruct (same_kind_counts _ _
                (text_lines_lf_lines _ (out b) (Nat.le_refl _) Hcr)) as [<- <-].
    rewrite <- count_records_minus. split; [reflexivity |].
    apply mem_summary_shows_count.
Qed.

(** C7: when mem-align succeeds, the child's standard output is the content
    of the SAM file, and the response is the summary whose record count is
    the number of lines not starting with [@] among those a text-mode
    reading yields: with [N] such lines of which [H] start with [@] it
    shows [Alignment records: ] followed by [N - H] (with thousands
    separators). If every carriage return of the file is followed by a line
    feed, in particular if it has none, the same holds with [N] and [H]
    taken over the lines of the file as line feeds delimit them. Truncated
    subtraction makes the count zero when [H = N], and an empty file has
    [N = 0]. *)
Theorem mem_counts_records (rt : Runtime) (settings : ServerSettings)
    (arguments : dict) (w : World) (text : string) :
  let r := call_tool rt settings "bwa_mem" arguments w in
  r.1 = [TextContent text] →
  ∃ tmpdir args m b,
    exec rt args m = Ok b
    ∧ (let lines := text_lines (out b) in
       let N := length lines in
       let H := length (List.filter (startswith "@"%char) lines) in
       text = mem_summary arguments (joinpath (Path tmpdir) "alignment.sam")
                (N.of_nat (String.length (out b))) (N - H)
       ∧ contains text
           ("Alignment records: " +:+ fmt_thousands (N.of_nat (N - H)) +:+ nl))
    ∧ (lone_cr (out b) = false →
       let lines := lf_lines (out b) in
       let N := length lines in
       let H := length (List.filter (startswith "@"%char) lines) in
       text = mem_summary arguments (joinpath (Path tmpdir) "alignment.sam")
                (N.of_nat (String.length (out b))) (N - H)
       ∧ contains text
           ("Alignment records: " +:+ fmt_thousands (N.of_nat (N - H)) +:+ nl)).
Proof. intros r. apply run_mem_records_counted. Qed.

Lemma mem_counts_records_witness :
  let r := call_tool (Scenario.runtime Scenario.good) default_settings
             "bwa_mem" Scenario.mem_args Scenario.world in
  length (lf_lines Scenario.sam) = 3%nat
  ∧ length (List.filter (startswith "@"%char) (lf_lines Scenario.sam)) = 1%nat
  ∧ ∃ text, r.1 = [TextContent text] ∧ contains text ("Alignment records: 2" +:+ nl).
Proof.
  intros r.
  split; [reflexivity |]. split; [reflexivity |].
  set (text := mem_summary Scenario.mem_args
                 (joinpath (Path "/tmp/tmpk3x9") "alignment.sam") 16 2).
  assert (r.1 = [TextContent text]) as Hr by by vm_compute.
  destruct (mem_counts_records (Scenario.runtime Scenario.good) default_settings
              Scenario.mem_args Scenario.world text Hr)
    as (tmpdir & args & m & b & Hx & _ & Hlf).
  injection Hx as <-. exists text. split; [exact Hr |].
  exact (proj2 (Hlf eq_refl)).
Defined.

(** The edge cases: an empty file, and a file of header lines only. *)
Example count_records_empty : count_records (text_lines "") = 0%nat.
Proof. reflexivity. Qed.
Example count_records_headers_only :
  count_records (text_lines ("@HD" +:+ nl +:+ "@SQ" +:+ nl)) = 0%nat.
Proof. reflexivity. Qed.

(** A run whose read-group line carries a carriage return: the SAM file has
    the two lines [@RG<CR>x] and [read1]. *)
Definition sam_with_cr : string :=
  "@RG" +:+ String CR "x" +:+ nl +:+ "read1" +:+ nl.

(** The file has [N = 2] lines of which [H = 1] starts with [@], yet the
    summary reports two alignment records, not [N - H = 1]: read in text
    mode, the carriage return ends the header line and [x] is counted as a
    record of its own. *)
Lemma lone_carriage_return_ends_a_line :
  let r := call_tool (Scenario.runtime (Behaviour 5 0 sam_with_cr "" id))
             default_settings "bwa_mem" Scenario.mem_args Scenario.world in
  let output := joinpath (Path "/tmp/tmpk3x9") "alignment.sam" in
  let lines := lf_lines sam_with_cr in
  let N := length lines in
  let H := length (List.filter (startswith "@"%char) lines) in
  lines = ["@RG" +:+ String CR "x" +:+ nl; "read1" +:+ nl]
  ∧ N = 2%nat ∧ H = 1%nat
  ∧ r.1 = [TextContent (mem_summary Scenario.mem_args output 12 2)]
  ∧ r.1 ≠ [TextContent (mem_summary Scenario.mem_args output 12 (N - H))].
Proof.
  split; [reflexivity |]. split; [reflexivity |]. split; [reflexivity |].
  split; [by vm_compute |].
  vm_compute. intros Heq. discriminate Heq.
Qed.

(** ** The indexing algorithm *)

(** The algorithm the index operation is to use: the explicit one if
    given, otherwise by the size of the reference. *)
Definition expected_algorithm (explicit : option string) (size : N) : string :=
  match explicit with
  | Some a => a
  | None => if (size <=? 2000000000)%N then "is" else "bwtsw"
  end.

(** A reference of exactly 2,000,000,000 bytes, no algorithm given: the
    child is launched with [is], not [bwtsw]. *)
Lemma index_at_threshold_uses_is :
  let w := Scenario.world in
  let r := call_tool (Scenario.runtime Scenario.good) default_settings
             "bwa_index" Scenario.index_args w in
  node_size <$> fs w !! Path "/data/ref.fa" = Some 2000000000%N
  ∧ Scenario.index_args !! "algorithm" = None
  ∧ children r.2 ≠ [Child ["bwa"; "index"; "-a"; "bwtsw"; "/data/ref.fa"] false]
  ∧ children r.2 = [Child ["bwa"; "index"; "-a"; "is"; "/data/ref.fa"] false].
Proof. repeat split; by vm_compute. Qed.

Lemma get_algorithm (arguments : dict) (explicit : option string) (size : N) :
  arguments !! "algorithm" = VStr <$> explicit →
  get arguments "algorithm"
    (VStr (if (bwtsw_threshold <? size)%N then "bwtsw" else "is"))
  = VStr (expected_algorithm explicit size).
Proof.
  intros H. unfold get. rewrite H. destruct explicit as [a|]; simpl; [done |].
  unfold bwtsw_threshold.
  destruct (N.ltb_spec 2000000000 size), (N.leb_spec size 2000000000); (done || lia).
Qed.

(** C3: with the reference present and the launch succeeding,
    the index operation launches the binary with [-a] followed by the
    explicit algorithm when one is given, whatever the size, and otherwise
    by [is] when the reference is at most 2,000,000,000 bytes and by
    [bwtsw] when it is larger. *)
Theorem index_algorithm_choice (rt : Runtime) (settings : ServerSettings)
    (arguments : dict) (w : World) (s : string) (n : node)
    (explicit : option string) (b : behaviour) :
  arguments !! "reference_fasta" = Some (VStr s) →
  fs w !! Path s = Some n →
  arguments !! "algorithm" = VStr <$> explicit →
  let cmd := [bwa_path settings; "index"; "-a";
              expected_algorithm explicit (node_size n); path_str (Path s)] in
  exec rt cmd (fs w) = Ok b →
  children (call_tool rt settings "bwa_index" arguments w).2
  = children w ++ [Child cmd (negb (run_time b <? timeout settings))].
Proof.
  intros Href Hn Halg cmd Hx.
  unfold call_tool, handlers. simpl.
  set (Q := λ r : response,
         children r.2
         = children w ++ [Child cmd (negb (run_time b <? timeout settings))]).
  change (Q (_run_index rt settings arguments w)).
  unfold _run_index. wp_handler. unfold run_index_body.
  apply wp_bind, wp_getitem. rewrite Href. cbv beta iota.
  apply wp_bind, wp_mkPath. cbv beta iota.
  apply wp_bind, wp_exists. rewrite Hn, bool_decide_eq_true_2 by eauto.
  cbv beta iota. apply wp_if. simpl negb. cbv iota.
  apply wp_bind, wp_stat_size. rewrite Hn. cbv beta iota.
  rewrite !(get_algorithm _ _ _ Halg).
  apply wp_bind, wp_create_subprocess_exec. simpl as_argv. fold cmd.
  cbv beta iota. rewrite Hx. cbv beta iota.
  apply wp_bind, wp_wait_for_communicate. simpl beh.
  destruct (run_time b <? timeout settings) eqn:Hlt; cbv beta iota;
    [| reflexivity].
  wp_walk; unfold Q; simpl; by rewrite reap_last.
Qed.

Lemma index_algorithm_choice_witness :
  let w := Scenario.world in
  children (call_tool (Scenario.runtime Scenario.good) default_settings
              "bwa_index" (<["algorithm" := VStr "bwtsw"]> Scenario.index_args) w).2
  = [Child ["bwa"; "index"; "-a"; "bwtsw"; "/data/ref.fa"] false].
Proof.
  apply (index_algorithm_choice (Scenario.runtime Scenario.good) default_settings
           (<["algorithm" := VStr "bwtsw"]> Scenario.index_args) Scenario.world
           "/data/ref.fa" (Blob 2000000000) (Some "bwtsw") Scenario.good);
    reflexivity.
Defined.

(** ** A second reads path that names no file *)

(** C1: when [reads2] is given, non-empty, and names no file, the argument
    vector is the one built with [reads2] left out, so no second reads
    argument is passed; but the two summaries differ: with [reads2] left
    out the last line is [Paired-end: No], with the dangling [reads2] it
    is [Paired-end: Yes], because the summary tests only that the
    argument was given. *)
Theorem mem_missing_reads2 (rt : Runtime) (settings : ServerSettings)
    (arguments : dict) (s : string) (reference reads1 output : path)
    (size : N) (n : nat) (w : World) :
  arguments !! "reads2" = Some (VStr s) →
  s ≠ "" →
  fs w !! Path s = None →
  let omitted := delete "reads2" arguments in
  mem_cmd rt settings arguments reference reads1 w
  = mem_cmd rt settings omitted reference reads1 w
  ∧ ∃ common,
      mem_summary arguments output size n = common +:+ "Paired-end: Yes"
      ∧ mem_summary omitted output size n = common +:+ "Paired-end: No".
Proof.
  intros Hr2 Hs Hfs omitted.
  assert (truthy (arguments !! "reads2") = true) as Hyes.
  { rewrite Hr2. simpl. by rewrite bool_decide_eq_false_2. }
  assert (truthy (omitted !! "reads2") = false) as Hno.
  { unfold omitted. by rewrite lookup_delete_eq. }
  assert (∀ k, k ≠ "reads2" → omitted !! k = arguments !! k) as Hother.
  { intros k Hk. unfold omitted. by rewrite lookup_delete_ne. }
  split.
  - unfold mem_cmd, get, bind, getitem, mkPath, exists_, ret, raise.
    rewrite Hyes, Hno, !Hother, Hr2 by done.
    assert (bool_decide (is_Some (fs w !! Path s)) = false) as Hmissing.
    { rewrite Hfs. apply bool_decide_eq_false_2. by intros [? ?]. }
    repeat case_match; simplify_eq/=; congruence.
  - unfold mem_summary, get. rewrite Hyes, Hno, !Hother by done.
    exists ("BWA-MEM alignment completed!" +:+ nl +:+ nl
            +:+ "Output file: " +:+ path_str output +:+ nl
            +:+ "Output size: " +:+ fmt_thousands size +:+ " bytes" +:+ nl
            +:+ "Alignment records: " +:+ fmt_thousands (N.of_nat n) +:+ nl
            +:+ "Threads used: " +:+ py_str (default (VInt 4) (arguments !! "threads"))
            +:+ nl).
    rewrite !string_app_assoc. split; reflexivity.
Qed.

Lemma mem_missing_reads2_witness :
  let rt := Scenario.runtime Scenario.good in
  let w := Scenario.world in
  let given := call_tool rt default_settings "bwa_mem"
                 Scenario.mem_args_missing_reads2 w in
  let omitted := call_tool rt default_settings "bwa_mem" Scenario.mem_args w in
  (∀ reference reads1,
     mem_cmd rt default_settings Scenario.mem_args_missing_reads2 reference reads1 w
     = mem_cmd rt default_settings (delete "reads2" Scenario.mem_args_missing_reads2)
         reference reads1 w)
  ∧ children given.2 = children omitted.2
  ∧ (∃ text, omitted.1 = [TextContent (text +:+ "Paired-end: No")]
             ∧ given.1 = [TextContent (text +:+ "Paired-end: Yes")]).
Proof.
  intros rt w given omitted. split; [| split].
  - intros reference reads1.
    apply (mem_missing_reads2 rt default_settings Scenario.mem_args_missing_reads2
             "/data/r2.fq" reference reads1 reference 0 0 w); done.
  - by vm_compute.
  - exists ("BWA-MEM alignment completed!" +:+ nl +:+ nl
            +:+ "Output file: /tmp/tmpk3x9/alignment.sam" +:+ nl
            +:+ "Output size: 16 bytes" +:+ nl
            +:+ "Alignment records: 2" +:+ nl
            +:+ "Threads used: 4" +:+ nl).
    split; by vm_compute.
Defined.

(** ** Pre-flight checks *)

(** The mem-align call of the scenario with a second reads path that names
    no file: the response is a success and a child has been launched. *)
Lemma dangling_optional_path_is_no_error :
  let w := Scenario.world in
  let r := call_tool (Scenario.runtime Scenario.good) default_settings
             "bwa_mem" Scenario.mem_args_missing_reads2 w in
  Scenario.mem_args_missing_reads2 !! "reads2" = Some (VStr "/data/r2.fq")
  ∧ fs w !! Path "/data/r2.fq" = None
  ∧ ¬ (∃ text, r.1 = [ErrorContent text])
  ∧ children r.2 ≠ children w.
Proof.
  repeat split; try by vm_compute.
  intros [text H]. vm_compute in H. discriminate H.
Qed.

(** The path fields an operation requires, in the order the handler looks
    them up and checks them. *)
Definition required (name : string) : list string :=
  if bool_decide (name = "bwa_index") then ["reference_fasta"]
  else if bool_decide (name = "bwa_mem") then ["reference"; "reads1"]
  else if bool_decide (name = "bwa_aln") then ["reference"; "reads"]
  else if bool_decide (name = "bwa_samse") then ["reference"; "sai_file"; "reads"]
  else if bool_decide (name = "bwa_sampe")
  then ["reference"; "sai_file1"; "sai_file2"; "reads1"; "reads2"]
  else [].

(** The paths the fields [keys] hold, when all are present and strings. *)
Fixpoint paths_of (arguments : dict) (keys : list string) : option (list path) :=
  match keys with
  | [] => Some []
  | k :: rest =>
      match arguments !! k with
      | Some (VStr s) => cons (Path s) <$> paths_of arguments rest
      | _ => None
      end
  end.

(** How an operation words that its [i]-th required path is missing. *)
Definition not_found_heading (name : string) (i : nat) : string :=
  if bool_decide (name = "bwa_index") then "Reference file not found: "
  else if bool_decide (name = "bwa_mem") || bool_decide (name = "bwa_aln")
  then match i with O => "Reference not found: " | S _ => "Reads file not found: " end
  else "File not found: ".

(** Enumerates the ways a given list splits as [l ++ x :: l']. *)
Ltac splits :=
  repeat match goal with
         | H : _ = ?l ++ _ :: _ |- _ => destruct l; simplify_eq/=
         end.

Ltac preflight_facts :=
  repeat match goal with
         | H : negb (bool_decide _) = true |- _ =>
             apply negb_true_iff, bool_decide_eq_false in H
         | H : negb (bool_decide _) = false |- _ =>
             apply negb_false_iff, bool_decide_eq_true in H
         | H : Forall _ (_ :: _) |- _ => apply Forall_cons in H as [? ?]
         | H : is_Some (?m !! ?p), H' : ?m !! ?p = None |- _ =>
             rewrite H' in H; by destruct H
         end.

Ltac preflight_leaf :=
  simplify_eq/=; preflight_facts;
  repeat (case_match; simplify_eq/=); preflight_facts;
  first [reflexivity | congruence | tauto | done].

Definition answers (expected : response) (r : response) : Prop := r = expected.

Section Preflight.
Variable rt : Runtime.
Variable settings : ServerSettings.

(** A required field is absent, the ones looked up before it being
    present and strings: the handler answers with the catch-all error
    for the [KeyError], and the world changes by one log line only. *)
Definition missing_field (name : string) (arguments : dict) (w : World) : Prop :=
  ∀ seen k rest,
    required name = seen ++ k :: rest →
    is_Some (paths_of arguments seen) →
    arguments !! k = None →
    call_tool rt settings name arguments w
    = ([ErrorContent ("Error: '" +:+ k +:+ "'")],
       add_log ("Error in BWA " +:+ tool_label name +:+ ": '" +:+ k +:+ "'") w).

(** All required fields are present and strings, and [p] is the first of
    their paths that does not exist: the handler answers by naming [p],
    and the world does not change. *)
Definition missing_file (name : string) (arguments : dict) (w : World) : Prop :=
  ∀ paths before p after,
    paths_of arguments (required name) = Some paths →
    paths = before ++ p :: after →
    Forall (λ q, is_Some (fs w !! q)) before →
    fs w !! p = None →
    call_tool rt settings name arguments w
    = ([ErrorContent (not_found_heading name (length before) +:+ path_str p)], w).

Ltac field_case handler body :=
  intros seen k rest Hreq Hseen Hk;
  unfold required in Hreq; simpl in Hreq; splits;
  destruct Hseen as [ps Hseen]; simpl in Hseen;
  repeat (case_match; simplify_eq/=);
  unfold call_tool, handlers; simpl;
  lazymatch goal with
  | |- ?r = ?e => change (answers e r)
  end;
  unfold handler; wp_handler; unfold body; wp_reads;
  unfold answers; preflight_leaf.

Ltac file_case handler body :=
  intros paths before p after Hpaths Hsplit Hbefore Hmiss;
  simpl in Hpaths; repeat (case_match; simplify_eq/=); splits;
  unfold call_tool, handlers; simpl;
  lazymatch goal with
  | |- ?r = ?e => change (answers e r)
  end;
  unfold handler; wp_handler; unfold body; wp_reads;
  unfold answers; preflight_leaf.

Lemma index_preflight arguments w :
  missing_field "bwa_index" arguments w ∧ missing_file "bwa_index" arguments w.
Proof.
  split; [field_case _run_index run_index_body | file_case _run_index run_index_body].
Qed.

Lemma mem_preflight arguments w :
  missing_field "bwa_mem" arguments w ∧ missing_file "bwa_mem" arguments w.
Proof.
  split; [field_case _run_mem run_mem_body | file_case _run_mem run_mem_body].
Qed.

Lemma aln_preflight arguments w :
  missing_field "bwa_aln" arguments w ∧ missing_file "bwa_aln" arguments w.
Proof.
  split; [field_case _run_aln run_aln_body | file_case _run_aln run_aln_body].
Qed.

Lemma samse_preflight arguments w :
  missing_field "bwa_samse" arguments w ∧ missing_file "bwa_samse" arguments w.
Proof.
  split; [field_case _run_samse run_samse_body | file_case _run_samse run_samse_body].
Qed.

Lemma sampe_preflight arguments w :
  missing_field "bwa_sampe" arguments w ∧ missing_file "bwa_sampe" arguments w.
Proof.
  split; [field_case _run_sampe run_sampe_body | file_case _run_sampe run_sampe_body].
Qed.
End Preflight.

(** C4: for each of the five operations, (a) when a required
    path field is absent from the arguments, those looked up before it
    being present, the call returns the catch-all error naming the absent
    field's key, [Error: '<key>'], and (b) when all required path fields
    are present and one of the paths does not exist, the call returns an
    error naming the first such path in the handler's order. In both cases
    the world after the call is the world before it, up to the log line of
    case (a): no child process is launched and no directory is created.
    The optional second reads path of mem-align is not among the paths
    checked. *)
Theorem preflight_errors (rt : Runtime) (settings : ServerSettings)
    (name : string) (arguments : dict) (w : World) :
  name ∈ ["bwa_index"; "bwa_mem"; "bwa_aln"; "bwa_samse"; "bwa_sampe"] →
  missing_field rt settings name arguments w
  ∧ missing_file rt settings name arguments w.
Proof.
  intros Hname.
  repeat (apply elem_of_cons in Hname as [->|Hname]).
  - apply index_preflight.
  - apply mem_preflight.
  - apply aln_preflight.
  - apply samse_preflight.
  - apply sampe_preflight.
  - by apply elem_of_nil in Hname.
Qed.

Lemma preflight_errors_witness :
  let rt := Scenario.runtime Scenario.good in
  let w := Scenario.world in
  let no_reads := <["reference" := VStr "/data/ref.fa"]> (∅ : dict) in
  let no_sai := <["sai_file" := VStr "/data/r1.sai"]>
                  (<["reads" := VStr "/data/r1.fq"]> no_reads) in
  call_tool rt default_settings "bwa_mem" no_reads w
  = ([ErrorContent "Error: 'reads1'"], add_log "Error in BWA mem: 'reads1'" w)
  ∧ call_tool rt default_settings "bwa_samse" no_sai w
    = ([ErrorContent "File not found: /data/r1.sai"], w).
Proof.
  intros rt w no_reads no_sai. split.
  - assert ("bwa_mem" ∈ ["bwa_index"; "bwa_mem"; "bwa_aln"; "bwa_samse"; "bwa_sampe"])
      as Hname by (apply elem_of_cons; right; apply elem_of_cons; by left).
    destruct (preflight_errors rt default_settings "bwa_mem" no_reads w Hname)
      as [Hfield _].
    apply (Hfield ["reference"] "reads1" []); [reflexivity | by eexists | reflexivity].
  - assert ("bwa_samse" ∈ ["bwa_index"; "bwa_mem"; "bwa_aln"; "bwa_samse"; "bwa_sampe"])
      as Hname by (repeat (apply elem_of_cons; first [by left | right])).
    destruct (preflight_errors rt default_settings "bwa_samse" no_sai w Hname)
      as [_ Hfile].
    apply (Hfile [Path "/data/ref.fa"; Path "/data/r1.sai"; Path "/data/r1.fq"]
             [Path "/data/ref.fa"] (Path "/data/r1.sai") [Path "/data/r1.fq"]);
      [reflexivity | reflexivity | | reflexivity].
    apply Forall_cons. split; [by eexists | apply Forall_nil_2].
Defined.

(** * Further properties of the server *)

(** ** Further cases for evaluating the handlers *)

Module Cases.
(** The disk of [Scenario] with a second reads file and an SAI file. *)
Definition disk : FS :=
  <[Path "/data/r2.fq" := Blob 1024]>
    (<[Path "/data/r1.sai" := Blob 64]> Scenario.disk).

Definition world : World := MkWorld disk [] [] [].

(** An indexing run that writes two of the five index files. *)
Definition indexer : behaviour :=
  Behaviour 5 0 "" ""
    (λ m, <[Path "/data/ref.fa.bwt" := Blob 10]>
            (<[Path "/data/ref.fa.amb" := Blob 10]> m)).

(** A runtime on which the binary is not installed. *)
Definition no_binary : Runtime :=
  MkRuntime (λ _ _, Ok "/tmp/tmpk3x9")
    (λ _ _, Raise (OSError "[Errno 2] No such file or directory: 'bwa'"))
    Scenario.py_message.

Definition aln_args : dict :=
  <["reference" := VStr "/data/ref.fa"]> (<["reads" := VStr "/data/r1.fq"]> ∅).

Definition samse_args : dict :=
  <["sai_file" := VStr "/data/r1.sai"]> aln_args.

End Cases.

(** ** The exact world after each building block *)

Lemma rmtree_other (d p : path) (m : FS) : ¬ under d p → rmtree d m !! p = m !! p.
Proof.
  intros Hu. unfold rmtree. destruct (m !! p) as [n|] eqn:E.
  - by apply map_lookup_filter_Some_2.
  - apply map_lookup_filter_None. by left.
Qed.

(** The world a launch with redirected output leaves behind, case by case:
    the output file could not be created; it was created but nothing was
    launched; the child outlived the timeout; the child finished. *)
Lemma wp_run_redirected_exact (rt : Runtime) (settings : ServerSettings)
    (cmd : list value) (output : path) Q w :
  (∀ e, Q (Raise e) w) →
  (∀ e, Q (Raise e) (set_fs <[output := Data ""]> w)) →
  (∀ args b,
     exec rt args (<[output := Data ""]> (fs w)) = Ok b →
     as_argv cmd = inr args →
     (run_time b <? timeout settings) = false →
     Q (Raise TimeoutError)
       (MkWorld (<[output := Data ""]> (fs w))
          (children w ++ [Child args true]) (log w) (tmpdirs w))) →
  (∀ args b,
     exec rt args (<[output := Data ""]> (fs w)) = Ok b →
     as_argv cmd = inr args →
     (run_time b <? timeout settings) = true →
     Q (Ok (Process (length (children w)) b (Some output), err b))
       (MkWorld (<[output := Data (out b)]> (effect b (<[output := Data ""]> (fs w))))
          (children w ++ [Child args false]) (log w) (tmpdirs w))) →
  wp (run_redirected rt settings cmd output) Q w.
Proof.
  intros Hopen Hspawn Hslow Hrun.
  unfold wp, run_redirected, bind, open_w, create_subprocess_exec,
    wait_for_communicate, ret.
  repeat case_match; simplify_eq/=; try done.
  all: unfold set_children, set_fs, write_stdout; simpl; rewrite ?reap_last.
  all: first [by eapply Hrun | by eapply Hslow | by apply Hspawn | by apply Hopen].
Qed.

Ltac wp_exact :=
  first
    [ wp_step
    | apply wp_with_TemporaryDirectory; [intros ? | intros ? ? ?]
    | apply wp_run_redirected_exact;
      [intros ? | intros ? | intros ? ? ? ? ? | intros ? ? ? ? ?]
    | apply wp_mem_cmd; intros [?|?]
    | apply wp_read_lines; intros [?|?] ?
    | apply wp_list_index_files; intros [?|?] ];
  cbv beta iota.

(** Proves [post w (call_tool ...)] by walking through each handler and
    closing every leaf with [leaf]. *)
Ltac by_walk leaf :=
  dispatch;
  [ unfold _run_index; wp_handler; unfold run_index_body; repeat wp_exact; leaf
  | unfold _run_mem; wp_handler; unfold run_mem_body; repeat wp_exact; leaf
  | unfold _run_aln; wp_handler; unfold run_aln_body; repeat wp_exact; leaf
  | unfold _run_samse; wp_handler; unfold run_samse_body; repeat wp_exact; leaf
  | unfold _run_sampe; wp_handler; unfold run_sampe_body; repeat wp_exact; leaf
  | leaf ].

(** ** Success means a clean exit *)

Definition clean_exit (rt : Runtime) (settings : ServerSettings)
    (w : World) (r : response) : Prop :=
  ∀ text, r.1 = [TextContent text] →
    ∃ args m b,
      exec rt args m = Ok b
      ∧ run_time b < timeout settings
      ∧ returncode b = 0
      ∧ children r.2 = children w ++ [Child args false].

Ltac exit_leaf :=
  idtac;
  let t := fresh "t" in
  let H := fresh "H" in
  unfold clean_exit; intros t H; simpl in H;
  first
    [ discriminate H
    | lazymatch goal with
      | Hx : exec _ ?a _ = Ok ?b |- _ =>
          exists a; eexists; exists b; split; [exact Hx |]
      end;
      simpl in *; rewrite ?reap_last;
      split; [by apply Z.ltb_lt |];
      split; [| reflexivity];
      lazymatch goal with
      | Hn : negb (_ =? 0) = false |- _ =>
          apply negb_false_iff in Hn; by apply Z.eqb_eq in Hn
      end ].

(** X1: for every operation, a success response means that the call launched
    one child, that the child finished within the timeout with exit status
    0, and that it has been reaped. *)
Theorem success_means_clean_exit (rt : Runtime) (settings : ServerSettings)
    (name : string) (arguments : dict) (w : World) (text : string) :
  let r := call_tool rt settings name arguments w in
  r.1 = [TextContent text] →
  ∃ args m b,
    exec rt args m = Ok b
    ∧ run_time b < timeout settings
    ∧ returncode b = 0
    ∧ children r.2 = children w ++ [Child args false].
Proof.
  intros r. revert text. change (clean_exit rt settings w r). subst r.
  by_walk exit_leaf.
Qed.

Lemma success_means_clean_exit_witness :
  let rt := Scenario.runtime Scenario.good in
  let r := call_tool rt default_settings "bwa_aln" Cases.aln_args Scenario.world in
  ∃ args m b,
    exec rt args m = Ok b
    ∧ run_time b < timeout default_settings
    ∧ returncode b = 0
    ∧ children r.2 = children Scenario.world ++ [Child args false].
Proof.
  intros rt r.
  eapply (success_means_clean_exit rt default_settings "bwa_aln"
            Cases.aln_args Scenario.world).
  vm_compute. reflexivity.
Defined.

(** ** At most one child per call *)

(** X2: a call adds at most one entry to the table of children and leaves
    the earlier entries as they were; an entry that is still running when
    the call returns belongs to a wait that timed out, the response being
    the catch-all error for [TimeoutError]. *)
Theorem at_most_one_child (rt : Runtime) (settings : ServerSettings)
    (name : string) (arguments : dict) (w : World) :
  let r := call_tool rt settings name arguments w in
  children r.2 = children w
  ∨ ∃ c, children r.2 = children w ++ [c]
         ∧ (running c = true →
            r.1 = [ErrorContent ("Error: " +:+ exn_str TimeoutError)]).
Proof.
  intros r.
  destruct (call_tool_launch rt settings name arguments w)
    as [Hnone|(args & m & b & _ & H)]; [by left | right].
  fold r in H. destruct (run_time b <? timeout settings).
  - destruct H as [Hc _]. exists (Child args false). split; [done |].
    intros Hr. discriminate Hr.
  - destruct H as [Hc Hr]. exists (Child args true). by split.
Qed.

Lemma at_most_one_child_witness :
  let r := call_tool (Scenario.runtime Scenario.slow) default_settings
             "bwa_aln" Cases.aln_args Scenario.world in
  r.1 = [ErrorContent ("Error: " +:+ exn_str TimeoutError)].
Proof.
  intros r.
  destruct (at_most_one_child (Scenario.runtime Scenario.slow) default_settings
              "bwa_aln" Cases.aln_args Scenario.world) as [H|(c & Hc & Hrun)].
  - vm_compute in H. discriminate H.
  - apply Hrun. vm_compute in Hc. by injection Hc as <-.
Defined.

(** ** The log *)

Definition logged (label : string) (w : World) (r : response) : Prop :=
  log r.2 = log w
  ∨ ∃ msg,
      log r.2 = log w ++ ["Error in BWA " +:+ label +:+ ": " +:+ msg]
      ∧ r.1 = [ErrorContent ("Error: " +:+ msg)].

Ltac log_leaf :=
  idtac;
  unfold logged; simpl;
  first
    [ left; reflexivity
    | right;
      lazymatch goal with
      | |- context [ErrorContent ("Error: " +:+ ?m)] => exists m
      end;
      split; reflexivity ].

(** X3: a call writes at most one log line, and only together with the
    catch-all error response that carries the same message. *)
Theorem only_faults_are_logged (rt : Runtime) (settings : ServerSettings)
    (name : string) (arguments : dict) (w : World) :
  let r := call_tool rt settings name arguments w in
  log r.2 = log w
  ∨ ∃ msg,
      log r.2 = log w ++ ["Error in BWA " +:+ tool_label name +:+ ": " +:+ msg]
      ∧ r.1 = [ErrorContent ("Error: " +:+ msg)].
Proof.
  intros r. change (logged (tool_label name) w r).
  subst r. unfold tool_label. by_walk log_leaf.
Qed.

(** ** The filesystem outside the temporary directory *)

Lemma under_ne (d p q : path) : ¬ under d p → under d q → q ≠ p.
Proof. intros Hp Hq ->. by apply Hp. Qed.

Definition untouched (p : path) (w : World) (r : response) : Prop :=
  fs r.2 !! p = fs w !! p.

Ltac fs_leaf Houtside Heff :=
  idtac;
  unfold untouched; simpl; unfold write_stdout; simpl;
  repeat first
    [ reflexivity
    | rewrite rmtree_other by (apply Houtside; eassumption)
    | rewrite lookup_insert_ne
        by (eapply under_ne;
            [apply Houtside; eassumption
            | first [apply under_refl | by apply under_joinpath]])
    | erewrite Heff by eassumption ].

(** X4: a path that lies outside the directory [tempfile] picks, and that no
    launched child touches, holds after the call what it held before: the
    handlers themselves write only inside the temporary directory. *)
Theorem files_elsewhere_untouched (rt : Runtime) (settings : ServerSettings)
    (name : string) (arguments : dict) (w : World) (p : path) :
  (∀ tmpdir, mkdtemp rt (temp_dir settings) (fs w) = Ok tmpdir →
             ¬ under (Path tmpdir) p) →
  (∀ args m b, exec rt args m = Ok b → ∀ m', effect b m' !! p = m' !! p) →
  fs (call_tool rt settings name arguments w).2 !! p = fs w !! p.
Proof.
  intros Houtside Heff.
  change (untouched p w (call_tool rt settings name arguments w)).
  by_walk ltac:(fs_leaf Houtside Heff).
Qed.

Lemma files_elsewhere_untouched_witness :
  fs (call_tool (Scenario.runtime Scenario.good) default_settings
        "bwa_mem" Scenario.mem_args Scenario.world).2 !! Path "/data/ref.fa"
  = fs Scenario.world !! Path "/data/ref.fa".
Proof.
  apply files_elsewhere_untouched.
  - intros tmpdir [= <-] [_ [k Hk]]. vm_compute in Hk. discriminate Hk.
  - intros args m b [= <-] m'. reflexivity.
Defined.

(** ** How many temporary directories *)

Definition tmp_once (rt : Runtime) (settings : ServerSettings) (name : string)
    (w : World) (r : response) : Prop :=
  tmpdirs r.2 = tmpdirs w
  ∨ name ≠ "bwa_index"
    ∧ ∃ tmpdir,
        mkdtemp rt (temp_dir settings) (fs w) = Ok tmpdir
        ∧ fs w !! Path tmpdir = None
        ∧ tmpdirs r.2 = tmpdirs w ++ [Path tmpdir].

Ltac once_leaf :=
  idtac;
  unfold tmp_once; simpl;
  first
    [ left; reflexivity
    | right; split; [done |]; eexists; split; [eassumption |];
      split; [eassumption | reflexivity] ].

(** X5: a call creates at most one temporary directory, and only one that
    did not exist before; the index operation creates none. *)
Theorem at_most_one_fresh_tmpdir (rt : Runtime) (settings : ServerSettings)
    (name : string) (arguments : dict) (w : World) :
  let r := call_tool rt settings name arguments w in
  tmpdirs r.2 = tmpdirs w
  ∨ name ≠ "bwa_index"
    ∧ ∃ tmpdir,
        mkdtemp rt (temp_dir settings) (fs w) = Ok tmpdir
        ∧ fs w !! Path tmpdir = None
        ∧ tmpdirs r.2 = tmpdirs w ++ [Path tmpdir].
Proof.
  intros r. change (tmp_once rt settings name w r). subst r.
  by_walk once_leaf.
Qed.

(** ** The advertised tools ([list_tools]) *)

Inductive json_type := JString | JInteger.

(** One entry of a schema's ["properties"]. *)
Record parameter := MkParameter {
  p_type : json_type;
  p_enum : option (list string);
  p_default : option value;
  p_description : option string
}.

(** A [Tool]: its name, its description, and of its input schema (always
    of type ["object"]) the properties and the required fields. *)
Record Tool := MkTool {
  tool_name : string;
  tool_description : string;
  properties : list (string * parameter);
  required_fields : list string
}.

Definition string_parameter (description : string) : parameter :=
  MkParameter JString None None (Some description).

Definition bwa_index_tool : Tool :=
  MkTool "bwa_index" "Create BWA index for reference genome"
    [ ("reference_fasta", string_parameter "Path to reference FASTA file");
      ("algorithm",
       MkParameter JString (Some ["bwtsw"; "is"]) (Some (VStr "bwtsw"))
         (Some "Indexing algorithm (bwtsw for >2GB genomes)")) ]
    ["reference_fasta"].

Definition bwa_mem_tool : Tool :=
  MkTool "bwa_mem" "Align reads using BWA-MEM algorithm"
    [ ("reference", string_parameter "Path to indexed reference genome");
      ("reads1", string_parameter "Path to first reads file (FASTQ)");
      ("reads2", string_parameter "Path to second reads file for paired-end");
      ("threads", MkParameter JInteger None (Some (VInt 4)) (Some "Number of threads"));
      ("min_seed_length",
       MkParameter JInteger None (Some (VInt 19)) (Some "Minimum seed length"));
      ("band_width",
       MkParameter JInteger None (Some (VInt 100))
         (Some "Band width for banded alignment"));
      ("read_group",
       string_parameter
         "Read group header line (e.g., '@RG\tID:sample1\tSM:sample1')") ]
    ["reference"; "reads1"].

Definition bwa_aln_tool : Tool :=
  MkTool "bwa_aln" "Find SA coordinates with BWA-backtrack algorithm"
    [ ("reference", string_parameter "Path to indexed reference genome");
      ("reads", string_parameter "Path to reads file (FASTQ)");
      ("threads", MkParameter JInteger None (Some (VInt 4)) None);
      ("max_mismatches",
       MkParameter JInteger None (Some (VInt 4)) (Some "Maximum number of mismatches"));
      ("max_gap_opens",
       MkParameter JInteger None (Some (VInt 1)) (Some "Maximum number of gap opens")) ]
    ["reference"; "reads"].

Definition bwa_samse_tool : Tool :=
  MkTool "bwa_samse" "Generate alignments in SAM format (single-end)"
    [ ("reference", string_parameter "Path to indexed reference genome");
      ("sai_file", string_parameter "Path to .sai file from bwa aln");
      ("reads", string_parameter "Path to original reads file") ]
    ["reference"; "sai_file"; "reads"].

Definition bwa_sampe_tool : Tool :=
  MkTool "bwa_sampe" "Generate alignments in SAM format (paired-end)"
    [ ("reference", string_parameter "Path to indexed reference genome");
      ("sai_file1", string_parameter "Path to .sai file for read 1");
      ("sai_file2", string_parameter "Path to .sai file for read 2");
      ("reads1", string_parameter "Path to reads file 1");
      ("reads2", string_parameter "Path to reads file 2") ]
    ["reference"; "sai_file1"; "sai_file2"; "reads1"; "reads2"].

Definition list_tools : list Tool :=
  [bwa_index_tool; bwa_mem_tool; bwa_aln_tool; bwa_samse_tool; bwa_sampe_tool].

(** The default a tool's schema gives for field [k], if any. *)
Definition tool_default (t : Tool) (k : string) : option value :=
  match List.find (λ kp, bool_decide (kp.1 = k)) (properties t) with
  | Some kp => p_default kp.2
  | None => None
  end.

(** X6: [call_tool] has a handler for exactly the names [list_tools]
    advertises; any other name is answered with [Unknown tool: <name>], the
    world untouched. *)
Theorem advertised_tools_are_dispatched (rt : Runtime) (settings : ServerSettings)
    (name : string) (arguments : dict) (w : World) :
  (name ∈ tool_name <$> list_tools ↔ is_Some (handlers rt settings name))
  ∧ (name ∉ tool_name <$> list_tools →
     call_tool rt settings name arguments w
     = ([ErrorContent ("Unknown tool: " +:+ name)], w)).
Proof.
  assert (name ∈ tool_name <$> list_tools ↔ is_Some (handlers rt settings name))
    as Hiff.
  { simpl. unfold handlers. split.
    - intros H. repeat (apply elem_of_cons in H as [->|H]); simpl; eauto.
      by apply elem_of_nil in H.
    - repeat (case_bool_decide; [subst; set_solver |]). by intros [? ?]. }
  split; [done |]. intros Hnot. unfold call_tool.
  destruct (handlers rt settings name) eqn:E; [| done].
  exfalso. apply Hnot, Hiff. eauto.
Qed.

Lemma advertised_tools_are_dispatched_witness :
  "bwa_aln" ∈ tool_name <$> list_tools
  ∧ call_tool (Scenario.runtime Scenario.good) default_settings "bwa_view"
      Cases.aln_args Scenario.world
    = ([ErrorContent "Unknown tool: bwa_view"], Scenario.world).
Proof.
  split.
  - apply (advertised_tools_are_dispatched (Scenario.runtime Scenario.good)
             default_settings "bwa_aln" ∅ Scenario.world).
    by eexists.
  - apply (advertised_tools_are_dispatched (Scenario.runtime Scenario.good)
             default_settings "bwa_view" Cases.aln_args Scenario.world).
    simpl. intros H.
    repeat (apply elem_of_cons in H as [H|H]; [discriminate H |]).
    by apply elem_of_nil in H.
Defined.

(** Passing the default the schema advertises is the same as leaving the
    field out. *)
Ltac same_lookups Hk :=
  rewrite ?lookup_insert_eq, ?lookup_insert_ne by done; rewrite ?Hk; reflexivity.

(** X7: for every advertised tool other than the index operation, passing
    the default the schema advertises for a field is the same call as
    leaving the field out. *)
Theorem advertised_default_same_as_omitted (rt : Runtime)
    (settings : ServerSettings) (t : Tool) (k : string) (d : value)
    (arguments : dict) (w : World) :
  t ∈ list_tools →
  tool_name t ≠ "bwa_index" →
  tool_default t k = Some d →
  arguments !! k = None →
  call_tool rt settings (tool_name t) (<[k := d]> arguments) w
  = call_tool rt settings (tool_name t) arguments w.
Proof.
  intros Ht Hname Hd Hk.
  repeat (apply elem_of_cons in Ht as [->|Ht]); try by apply elem_of_nil in Ht.
  all: unfold tool_default in Hd; simpl in Hd, Hname; try done.
  all: repeat (case_bool_decide; simplify_eq/=).
  all: unfold call_tool, handlers; simpl.
  - unfold _run_mem, run_mem_body, mem_cmd, mem_summary, get, getitem.
    same_lookups Hk.
  - unfold _run_mem, run_mem_body, mem_cmd, mem_summary, get, getitem.
    same_lookups Hk.
  - unfold _run_mem, run_mem_body, mem_cmd, mem_summary, get, getitem.
    same_lookups Hk.
  - unfold _run_aln, run_aln_body, get, getitem. same_lookups Hk.
  - unfold _run_aln, run_aln_body, get, getitem. same_lookups Hk.
  - unfold _run_aln, run_aln_body, get, getitem. same_lookups Hk.
Qed.

Lemma advertised_default_same_as_omitted_witness :
  let rt := Scenario.runtime Scenario.good in
  call_tool rt default_settings "bwa_mem"
    (<["threads" := VInt 4]> Scenario.mem_args) Scenario.world
  = call_tool rt default_settings "bwa_mem" Scenario.mem_args Scenario.world.
Proof.
  intros rt.
  apply (advertised_default_same_as_omitted rt default_settings bwa_mem_tool
           "threads" (VInt 4) Scenario.mem_args Scenario.world).
  - apply elem_of_cons. right. apply elem_of_cons. by left.
  - done.
  - reflexivity.
  - reflexivity.
Defined.

(** ** Fields the schema requires *)

(** Among [keys], one of which is absent while the others hold strings,
    there is a first absent one. *)
Lemma first_absent (arguments : dict) (keys : list string) :
  (∃ k, k ∈ keys ∧ arguments !! k = None) →
  (∀ k v, k ∈ keys → arguments !! k = Some v → ∃ s, v = VStr s) →
  ∃ seen k rest,
    keys = seen ++ k :: rest
    ∧ is_Some (paths_of arguments seen)
    ∧ arguments !! k = None.
Proof.
  induction keys as [|k0 keys IH]; intros (k & Hin & Hk) Hstr.
  - by apply elem_of_nil in Hin.
  - destruct (arguments !! k0) as [v|] eqn:E.
    + destruct (Hstr k0 v) as [s ->]; [by left | done |].
      destruct IH as (seen & k' & rest & -> & [ps Hps] & Hk').
      * apply elem_of_cons in Hin as [->|Hin]; [congruence | eauto].
      * intros k1 v1 H1. apply Hstr. by right.
      * exists (k0 :: seen), k', rest. split; [done |]. split; [| done].
        simpl. rewrite E, Hps. by eexists.
    + exists [], k0, keys. repeat split; [by eexists | done].
Qed.

(** X8: for every advertised tool, when some field its schema requires is
    absent, the required fields that are present being strings, the call is
    answered with the catch-all error naming an absent required field, and
    the world changes by one log line only. *)
Theorem required_field_missing (rt : Runtime) (settings : ServerSettings)
    (t : Tool) (arguments : dict) (w : World) :
  t ∈ list_tools →
  (∃ k, k ∈ required_fields t ∧ arguments !! k = None) →
  (∀ k v, k ∈ required_fields t → arguments !! k = Some v → ∃ s, v = VStr s) →
  ∃ k,
    k ∈ required_fields t
    ∧ arguments !! k = None
    ∧ call_tool rt settings (tool_name t) arguments w
      = ([ErrorContent ("Error: '" +:+ k +:+ "'")],
         add_log ("Error in BWA " +:+ tool_label (tool_name t) +:+ ": '" +:+ k +:+ "'") w).
Proof.
  intros Ht Hmiss Hstr.
  destruct (first_absent arguments (required_fields t) Hmiss Hstr)
    as (seen & k & rest & Hsplit & Hseen & Hk).
  exists k. split; [rewrite Hsplit; apply elem_of_app; right; by left |].
  split; [done |].
  repeat (apply elem_of_cons in Ht as [->|Ht]); try by apply elem_of_nil in Ht.
  - by apply (proj1 (index_preflight rt settings arguments w) seen k rest).
  - by apply (proj1 (mem_preflight rt settings arguments w) seen k rest).
  - by apply (proj1 (aln_preflight rt settings arguments w) seen k rest).
  - by apply (proj1 (samse_preflight rt settings arguments w) seen k rest).
  - by apply (proj1 (sampe_preflight rt settings arguments w) seen k rest).
Qed.

Lemma required_field_missing_witness :
  ∃ k,
    k ∈ required_fields bwa_mem_tool
    ∧ Cases.aln_args !! k = None
    ∧ call_tool (Scenario.runtime Scenario.good) default_settings "bwa_mem"
        Cases.aln_args Scenario.world
      = ([ErrorContent ("Error: '" +:+ k +:+ "'")],
         add_log ("Error in BWA mem: '" +:+ k +:+ "'") Scenario.world).
Proof.
  apply (required_field_missing (Scenario.runtime Scenario.good) default_settings
           bwa_mem_tool Cases.aln_args Scenario.world).
  - apply elem_of_cons. right. apply elem_of_cons. by left.
  - exists "reads1". split; [| reflexivity].
    apply elem_of_cons. right. apply elem_of_cons. by left.
  - intros k v Hk Hv. simpl in Hk.
    repeat (apply elem_of_cons in Hk as [->|Hk]).
    + vm_compute in Hv. injection Hv as <-. by eexists.
    + vm_compute in Hv. discriminate Hv.
    + by apply elem_of_nil in Hk.
Defined.

(** ** The files the index summary lists *)

(** The path of the index file with [suffix]: the name of [p] with the
    suffix appended. *)
Definition index_file_of (p : path) (suffix : string) : path :=
  (p.1, removelast p.2 ++ [path_name p +:+ suffix]).

Lemma list_index_files_eq (rt : Runtime) (p : path) (suffixes : list string)
    (w : World) :
  path_name p ≠ "" →
  list_index_files rt p suffixes w
  = (Ok (path_str <$>
           List.filter (λ q, bool_decide (is_Some (fs w !! q)))
             (index_file_of p <$> suffixes)),
     w).
Proof.
  intros Hname. induction suffixes as [|s ss IH]; [done |].
  simpl. unfold bind at 1. unfold with_suffix_added.
  rewrite bool_decide_eq_false_2 by done. unfold ret at 1.
  unfold bind at 1. unfold exists_ at 1.
  unfold bind at 1. rewrite IH. unfold ret. fold (index_file_of p s).
  by destruct (bool_decide (is_Some (fs w !! index_file_of p s))).
Qed.

(** X9: when the index operation's child finishes within the timeout with
    exit status 0, the response names the reference and the algorithm and
    lists, in the order .amb, .ann, .bwt, .pac, .sa, exactly those index
    files (the reference's name with the suffix appended) that exist once
    the child has run. *)
Theorem index_success_lists_existing_files (rt : Runtime)
    (settings : ServerSettings) (arguments : dict) (w : World) (s : string)
    (n : node) (explicit : option string) (b : behaviour) :
  arguments !! "reference_fasta" = Some (VStr s) →
  fs w !! Path s = Some n →
  path_name (Path s) ≠ "" →
  arguments !! "algorithm" = VStr <$> explicit →
  let algorithm := expected_algorithm explicit (node_size n) in
  exec rt [bwa_path settings; "index"; "-a"; algorithm; path_str (Path s)] (fs w)
  = Ok b →
  run_time b < timeout settings →
  returncode b = 0 →
  let files :=
    List.filter (λ q, bool_decide (is_Some (effect b (fs w) !! q)))
      (index_file_of (Path s) <$> [".amb"; ".ann"; ".bwt"; ".pac"; ".sa"]) in
  (call_tool rt settings "bwa_index" arguments w).1
  = [TextContent
       ("BWA index created successfully!" +:+ nl +:+ nl
        +:+ "Reference: " +:+ path_str (Path s) +:+ nl
        +:+ "Algorithm: " +:+ algorithm +:+ nl
        +:+ "Index files created:" +:+ nl
        +:+ join nl ((λ f, "  " +:+ bullet +:+ " " +:+ path_str f) <$> files))].
Proof.
  intros Href Hn Hname Halg algorithm Hx Hlt Hrc files.
  unfold call_tool, handlers. simpl.
  set (expected := [TextContent _]).
  set (Q := λ r : response, r.1 = expected).
  change (Q (_run_index rt settings arguments w)).
  unfold _run_index. wp_handler. unfold run_index_body.
  apply wp_bind, wp_getitem. rewrite Href. cbv beta iota.
  apply wp_bind, wp_mkPath. cbv beta iota.
  apply wp_bind, wp_exists. rewrite Hn, bool_decide_eq_true_2 by eauto.
  cbv beta iota. apply wp_if. simpl negb. cbv iota.
  apply wp_bind, wp_stat_size. rewrite Hn. cbv beta iota.
  rewrite !(get_algorithm _ _ _ Halg). fold algorithm.
  apply wp_bind, wp_create_subprocess_exec. simpl as_argv.
  cbv beta iota. rewrite Hx. cbv beta iota.
  apply wp_bind, wp_wait_for_communicate. simpl beh.
  apply Z.ltb_lt in Hlt. rewrite Hlt. cbv beta iota.
  apply wp_if. rewrite Hrc. simpl negb. cbv iota.
  apply wp_bind. unfold wp at 1.
  rewrite list_index_files_eq by done. simpl.
  unfold wp, ret, Q, expected. simpl. unfold write_stdout. simpl.
  do 2 f_equal. unfold files. by rewrite <- list_fmap_compose.
Qed.

Lemma index_success_lists_existing_files_witness :
  (call_tool (Scenario.runtime Cases.indexer) default_settings "bwa_index"
     Scenario.index_args Scenario.world).1
  = [TextContent
       ("BWA index created successfully!" +:+ nl +:+ nl
        +:+ "Reference: /data/ref.fa" +:+ nl
        +:+ "Algorithm: is" +:+ nl
        +:+ "Index files created:" +:+ nl
        +:+ "  " +:+ bullet +:+ " /data/ref.fa.amb" +:+ nl
        +:+ "  " +:+ bullet +:+ " /data/ref.fa.bwt")].
Proof.
  apply (index_success_lists_existing_files (Scenario.runtime Cases.indexer)
           default_settings Scenario.index_args Scenario.world "/data/ref.fa"
           (Blob 2000000000) None Cases.indexer); try reflexivity.
  by vm_compute.
Defined.

(** ** Paired-end mem-align *)



(** ** Optional strings that are empty *)

(** X11: for mem-align, a [read_group] or [reads2] whose value is false in
    Python's sense (the empty string, zero, [False]) is the same call as one
    without that field. *)
Theorem mem_empty_option_same_as_omitted (rt : Runtime)
    (settings : ServerSettings) (k : string) (v : value)
    (arguments : dict) (w : World) :
  k = "read_group" ∨ k = "reads2" →
  arguments !! k = Some v →
  truthy (Some v) = false →
  call_tool rt settings "bwa_mem" arguments w
  = call_tool rt settings "bwa_mem" (delete k arguments) w.
Proof.
  intros Hk Hv Hfalse. unfold call_tool, handlers. simpl.
  unfold _run_mem, run_mem_body, mem_cmd, mem_summary, get, getitem.
  destruct Hk as [-> | ->].
  all: rewrite ?lookup_delete_eq, ?lookup_delete_ne by done.
  all: rewrite Hv, Hfalse; reflexivity.
Qed.

Lemma mem_empty_option_same_as_omitted_witness :
  let rt := Scenario.runtime Scenario.good in
  let arguments := <["read_group" := VStr ""]> Scenario.mem_args in
  call_tool rt default_settings "bwa_mem" arguments Scenario.world
  = call_tool rt default_settings "bwa_mem" (delete "read_group" arguments)
      Scenario.world.
Proof.
  intros rt arguments.
  apply (mem_empty_option_same_as_omitted rt default_settings "read_group"
           (VStr "") arguments Scenario.world); [by left | reflexivity | reflexivity].
Defined.

(** ** The reported output size *)

Lemma contains_skip (a b needle : string) :
  contains b needle → contains (a +:+ b) needle.
Proof.
  intros (pre & post & ->). exists (a +:+ pre), post.
  by rewrite string_app_assoc.
Qed.

Lemma contains_prefix3 (a b c rest : string) :
  contains (a +:+ b +:+ c +:+ rest) (a +:+ b +:+ c).
Proof. exists "", rest. by rewrite app_nil_l, !string_app_assoc. Qed.

Lemma contains_self (needle : string) : contains needle needle.
Proof. exists "", "". by rewrite app_nil_l, app_nil_r. Qed.

Definition size_reported (rt : Runtime) (r : response) : Prop :=
  ∀ text, r.1 = [TextContent text] →
    ∃ args m b,
      exec rt args m = Ok b
      ∧ contains text
          ("Output size: "
           +:+ fmt_thousands (N.of_nat (String.length (out b))) +:+ " bytes").

Ltac size_leaf :=
  idtac;
  let t := fresh "t" in
  let H := fresh "H" in
  unfold size_reported; intros t H; simpl in H;
  first
    [ discriminate H
    | injection H as <-; simpl in *;
      lazymatch goal with
      | Hx : exec _ ?a _ = Ok ?b, Hn : <[_ := _]> _ !! _ = Some ?n |- _ =>
          rewrite lookup_insert_eq in Hn; injection Hn as <-;
          exists a; eexists; exists b; split; [exact Hx |]
      end;
      unfold mem_summary; simpl node_size;
      repeat first
        [ apply contains_prefix3 | apply contains_self | apply contains_skip ] ].

(** X12: a success response of mem-align, backtrack-align, samse or sampe
    reports as output size the number of bytes the child wrote to its
    standard output. *)
Theorem output_size_is_bytes_written (rt : Runtime) (settings : ServerSettings)
    (name : string) (arguments : dict) (w : World) (text : string) :
  name ∈ ["bwa_mem"; "bwa_aln"; "bwa_samse"; "bwa_sampe"] →
  (call_tool rt settings name arguments w).1 = [TextContent text] →
  ∃ args m b,
    exec rt args m = Ok b
    ∧ contains text
        ("Output size: "
         +:+ fmt_thousands (N.of_nat (String.length (out b))) +:+ " bytes").
Proof.
  intros Hname. revert text.
  change (size_reported rt (call_tool rt settings name arguments w)).
  unfold call_tool, handlers.
  repeat (apply elem_of_cons in Hname as [->|Hname]); simpl;
    try by apply elem_of_nil in Hname.
  - unfold _run_mem; wp_handler; unfold run_mem_body; repeat wp_exact; size_leaf.
  - unfold _run_aln; wp_handler; unfold run_aln_body; repeat wp_exact; size_leaf.
  - unfold _run_samse; wp_handler; unfold run_samse_body; repeat wp_exact; size_leaf.
  - unfold _run_sampe; wp_handler; unfold run_sampe_body; repeat wp_exact; size_leaf.
Qed.

Lemma output_size_is_bytes_written_witness :
  let rt := Scenario.runtime Scenario.good in
  ∃ args m b,
    exec rt args m = Ok b
    ∧ contains
        ("BWA samse completed!" +:+ nl +:+ nl
         +:+ "Output SAM file: /tmp/tmpk3x9/alignment.sam" +:+ nl
         +:+ "Output size: 16 bytes")
        ("Output size: "
         +:+ fmt_thousands (N.of_nat (String.length (out b))) +:+ " bytes").
Proof.
  intros rt.
  apply (output_size_is_bytes_written rt default_settings "bwa_samse"
           Cases.samse_args Cases.world).
  - repeat (apply elem_of_cons; first [by left | right]).
  - by vm_compute.
Defined.

(** ** Only the text of a numeric option matters *)

(** The options a handler passes through [str()]. *)
Definition text_options (name : string) : list string :=
  if bool_decide (name = "bwa_mem") then ["threads"; "min_seed_length"; "band_width"]
  else if bool_decide (name = "bwa_aln") then ["threads"; "max_mismatches"; "max_gap_opens"]
  else [].

(** X13: the numeric options of mem-align and backtrack-align enter the call
    only through [str()]: two values with the same text, such as the integer
    8 and the string [8], give the same call. *)
Theorem option_text_alone_matters (rt : Runtime) (settings : ServerSettings)
    (name k : string) (v1 v2 : value) (arguments : dict) (w : World) :
  k ∈ text_options name →
  py_str v1 = py_str v2 →
  call_tool rt settings name (<[k := v1]> arguments) w
  = call_tool rt settings name (<[k := v2]> arguments) w.
Proof.
  intros Hk Hv. unfold text_options in Hk.
  assert (name = "bwa_mem"
          ∧ (k = "threads" ∨ k = "min_seed_length" ∨ k = "band_width")
          ∨ name = "bwa_aln"
            ∧ (k = "threads" ∨ k = "max_mismatches" ∨ k = "max_gap_opens"))
    as [[-> Hcase]|[-> Hcase]].
  { repeat case_bool_decide; subst;
      rewrite ?elem_of_cons, elem_of_nil in Hk; tauto. }
  - unfold call_tool, handlers. simpl.
    unfold _run_mem, run_mem_body, mem_cmd, mem_summary, get, getitem.
    destruct Hcase as [->|[->| ->]].
    all: rewrite ?lookup_insert_eq, ?lookup_insert_ne by done.
    all: simpl from_option; rewrite Hv; reflexivity.
  - unfold call_tool, handlers. simpl.
    unfold _run_aln, run_aln_body, get, getitem.
    destruct Hcase as [->|[->| ->]].
    all: rewrite ?lookup_insert_eq, ?lookup_insert_ne by done.
    all: simpl from_option; rewrite Hv; reflexivity.
Qed.

Lemma option_text_alone_matters_witness :
  let rt := Scenario.runtime Scenario.good in
  call_tool rt default_settings "bwa_mem"
    (<["threads" := VStr "8"]> Scenario.mem_args) Scenario.world
  = call_tool rt default_settings "bwa_mem"
      (<["threads" := VInt 8]> Scenario.mem_args) Scenario.world.
Proof.
  intros rt. apply option_text_alone_matters; [| reflexivity].
  apply elem_of_cons. by left.
Defined.

(** ** A required path that is not a string *)

Ltac not_string_case handler body :=
  unfold call_tool, handlers; simpl;
  lazymatch goal with
  | |- ?r = ?e => change (answers e r)
  end;
  unfold handler; wp_handler; unfold body; wp_reads;
  unfold answers; preflight_leaf.

(** X14: for every advertised tool, when a required field holds a value that
    is not a string, the required fields before it being present strings,
    the call is answered with the catch-all error for the [TypeError] that
    [Path] raises, and the world changes by one log line only. *)
Theorem required_field_not_a_string (rt : Runtime) (settings : ServerSettings)
    (t : Tool) (arguments : dict) (w : World)
    (seen : list string) (k : string) (rest : list string) (v : value) :
  t ∈ list_tools →
  required_fields t = seen ++ k :: rest →
  is_Some (paths_of arguments seen) →
  arguments !! k = Some v →
  (∀ s, v ≠ VStr s) →
  call_tool rt settings (tool_name t) arguments w
  = ([ErrorContent ("Error: " +:+ message rt (NotPathLike v))],
     add_log ("Error in BWA " +:+ tool_label (tool_name t) +:+ ": "
              +:+ message rt (NotPathLike v)) w).
Proof.
  intros Ht Hreq [ps Hseen] Hk Hv.
  destruct v as [s|z|b]; [by destruct (Hv s) | |].
  all: repeat (apply elem_of_cons in Ht as [->|Ht]);
    try by apply elem_of_nil in Ht.
  all: simpl in Hreq; splits; simpl in *;
    repeat (case_match; simplify_eq/=).
  all: first
    [ not_string_case _run_index run_index_body
    | not_string_case _run_mem run_mem_body
    | not_string_case _run_aln run_aln_body
    | not_string_case _run_samse run_samse_body
    | not_string_case _run_sampe run_sampe_body ].
Qed.

Lemma required_field_not_a_string_witness :
  let rt := Scenario.runtime Scenario.good in
  call_tool rt default_settings "bwa_samse"
    (<["sai_file" := VInt 7]> Cases.aln_args) Scenario.world
  = ([ErrorContent ("Error: " +:+ message rt (NotPathLike (VInt 7)))],
     add_log ("Error in BWA samse: " +:+ message rt (NotPathLike (VInt 7)))
       Scenario.world).
Proof.
  intros rt.
  apply (required_field_not_a_string rt default_settings bwa_samse_tool
           (<["sai_file" := VInt 7]> Cases.aln_args) Scenario.world
           ["reference"] "sai_file" ["reads"] (VInt 7)).
  - repeat (apply elem_of_cons; first [by left | right]).
  - reflexivity.
  - by eexists.
  - reflexivity.
  - done.
Defined.

(** ** A binary that cannot be launched *)

Lemma parent_joinpath_file (d : path) (file : string) :
  root_of file = "" →
  (∃ x, (Path file).2 = [x]) →
  parent (joinpath d file) = d.
Proof.
  intros Hroot [x Hx]. unfold parent, joinpath. rewrite Hroot, Hx. simpl.
  rewrite removelast_last. by destruct d.
Qed.

Lemma run_redirected_launch_fails (rt : Runtime) (settings : ServerSettings)
    (cmd : list value) (output : path) (w : World)
    (args : list string) (size : N) (e : exn) :
  fs w !! parent output = Some (Dir size) →
  fs w !! output = None →
  as_argv cmd = inr args →
  exec rt args (<[output := Data ""]> (fs w)) = Raise e →
  run_redirected rt settings cmd output w
  = (Raise e, set_fs <[output := Data ""]> w).
Proof.
  intros Hparent Hout Hargs Hx.
  unfold run_redirected, bind, open_w, create_subprocess_exec.
  rewrite Hparent, Hout. simpl. by rewrite Hargs, Hx.
Qed.

Definition launch_failed (e : exn) (label : string) (w : World)
    (d : path) (r : response) : Prop :=
  r.1 = [ErrorContent ("Error: " +:+ exn_str e)]
  ∧ children r.2 = children w
  ∧ log r.2 = log w ++ ["Error in BWA " +:+ label +:+ ": " +:+ exn_str e]
  ∧ fs r.2 !! d = None.

Ltac launch_fails Hmk Hfresh Hout Hx :=
  first
    [ exfalso; preflight_leaf
    | unfold wp, with_TemporaryDirectory; rewrite Hmk, Hfresh;
      unfold bind;
      erewrite run_redirected_launch_fails;
      [ unfold launch_failed; simpl;
        repeat split; apply rmtree_under, under_refl
      | simpl; rewrite parent_joinpath_file by (first [done | by eexists]);
        apply lookup_insert_eq
      | simpl; rewrite lookup_insert_ne; [exact Hout |];
        intros E; apply (f_equal (λ q, length q.2)) in E; revert E;
        unfold joinpath; simpl; rewrite length_app; simpl; lia
      | reflexivity
      | apply Hx ] ].

(** X15: for backtrack-align, samse and sampe, when all required paths exist
    and the temporary directory is created but the binary cannot be
    launched, the response is the catch-all error with the launch error's
    message; no child is recorded, one line is logged, and the temporary
    directory is gone. *)
Theorem launch_failure_reported (rt : Runtime) (settings : ServerSettings)
    (name : string) (arguments : dict) (w : World)
    (paths : list path) (tmpdir : string) (e : exn) :
  name ∈ ["bwa_aln"; "bwa_samse"; "bwa_sampe"] →
  paths_of arguments (required name) = Some paths →
  Forall (λ q, is_Some (fs w !! q)) paths →
  mkdtemp rt (temp_dir settings) (fs w) = Ok tmpdir →
  fs w !! Path tmpdir = None →
  fs w !! joinpath (Path tmpdir) (output_name name) = None →
  (∀ args m, exec rt args m = Raise e) →
  let r := call_tool rt settings name arguments w in
  r.1 = [ErrorContent ("Error: " +:+ exn_str e)]
  ∧ children r.2 = children w
  ∧ log r.2 = log w ++ ["Error in BWA " +:+ tool_label name +:+ ": " +:+ exn_str e]
  ∧ fs r.2 !! Path tmpdir = None.
Proof.
  intros Hname Hpaths Hexist Hmk Hfresh Hout Hx r.
  change (launch_failed e (tool_label name) w (Path tmpdir) r). subst r.
  unfold call_tool, handlers.
  repeat (apply elem_of_cons in Hname as [->|Hname]);
    try by apply elem_of_nil in Hname.
  all: simpl in Hpaths, Hout |- *; repeat (case_match; simplify_eq/=).
  - unfold _run_aln. wp_handler. unfold run_aln_body. wp_reads.
    all: launch_fails Hmk Hfresh Hout Hx.
  - unfold _run_samse. wp_handler. unfold run_samse_body. wp_reads.
    all: launch_fails Hmk Hfresh Hout Hx.
  - unfold _run_sampe. wp_handler. unfold run_sampe_body. wp_reads.
    all: launch_fails Hmk Hfresh Hout Hx.
Qed.

Lemma launch_failure_reported_witness :
  let r := call_tool Cases.no_binary default_settings "bwa_samse"
             Cases.samse_args Cases.world in
  r.1 = [ErrorContent "Error: [Errno 2] No such file or directory: 'bwa'"]
  ∧ children r.2 = []
  ∧ log r.2 = ["Error in BWA samse: [Errno 2] No such file or directory: 'bwa'"]
  ∧ fs r.2 !! Path "/tmp/tmpk3x9" = None.
Proof.
  apply (launch_failure_reported Cases.no_binary default_settings "bwa_samse"
           Cases.samse_args Cases.world
           [Path "/data/ref.fa"; Path "/data/r1.sai"; Path "/data/r1.fq"]
           "/tmp/tmpk3x9"
           (OSError "[Errno 2] No such file or directory: 'bwa'")).
  - repeat (apply elem_of_cons; first [by left | right]).
  - reflexivity.
  - repeat (apply Forall_cons; split; [by eexists |]). apply Forall_nil_2.
  - reflexivity.
  - reflexivity.
  - reflexivity.
  - reflexivity.
Defined.

(** ** The command that is launched *)

Lemma wp_with_TemporaryDirectory_ok {A} (rt : Runtime) (dir : option string)
    (body : string → M A) (tmpdir : string) Q w :
  mkdtemp rt dir (fs w) = Ok tmpdir →
  fs w !! Path tmpdir = None →
  wp (body tmpdir) (λ r w1, Q r (set_fs (rmtree (Path tmpdir)) w1))
    (add_tmpdir (Path tmpdir) w) →
  wp (with_TemporaryDirectory rt dir body) Q w.
Proof.
  intros Hmk Hfresh. unfold wp, with_TemporaryDirectory. rewrite Hmk, Hfresh.
  by destruct (body tmpdir (add_tmpdir (Path tmpdir) w)).
Qed.

Lemma wp_run_redirected_ok (rt : Runtime) (settings : ServerSettings)
    (cmd : list value) (output : path) (args : list string) (size : N)
    (b : behaviour) Q w :
  fs w !! parent output = Some (Dir size) →
  fs w !! output = None →
  as_argv cmd = inr args →
  exec rt args (<[output := Data ""]> (fs w)) = Ok b →
  (if run_time b <? timeout settings
   then Q (Ok (Process (length (children w)) b (Some output), err b))
          (MkWorld (<[output := Data (out b)]> (effect b (<[output := Data ""]> (fs w))))
             (children w ++ [Child args false]) (log w) (tmpdirs w))
   else Q (Raise TimeoutError)
          (MkWorld (<[output := Data ""]> (fs w))
             (children w ++ [Child args true]) (log w) (tmpdirs w))) →
  wp (run_redirected rt settings cmd output) Q w.
Proof.
  intros Hparent Hout Hargs Hx.
  unfold wp, run_redirected, bind, open_w, create_subprocess_exec,
    wait_for_communicate, ret.
  rewrite Hparent, Hout. simpl. rewrite Hargs, Hx. simpl.
  destruct (run_time b <? timeout settings); simpl; [| done].
  unfold set_children, set_fs, write_stdout. simpl. by rewrite reap_last.
Qed.

(** The options of an operation's command line. *)
Definition options (name : string) (arguments : dict) : list string :=
  if bool_decide (name = "bwa_aln")
  then ["-t"; py_str (get arguments "threads" (VInt 4));
        "-n"; py_str (get arguments "max_mismatches" (VInt 4));
        "-o"; py_str (get arguments "max_gap_opens" (VInt 1))]
  else [].

Definition launches (c : child) (w : World) (r : response) : Prop :=
  children r.2 = children w ++ [c].

Ltac launch_leaf Hmk Hfresh Hout Hx :=
  first
    [ exfalso; preflight_leaf
    | simplify_eq;
      eapply wp_with_TemporaryDirectory_ok; [exact Hmk | exact Hfresh |];
      apply wp_bind;
      eapply wp_run_redirected_ok;
      [ simpl; rewrite parent_joinpath_file by (first [done | by eexists]);
        apply lookup_insert_eq
      | simpl; rewrite lookup_insert_ne; [exact Hout |];
        intros E; apply (f_equal (λ q, length q.2)) in E; revert E;
        unfold joinpath; simpl; rewrite length_app; simpl; lia
      | reflexivity
      | exact Hx
      | destruct (run_time _ <? _); cbv beta iota;
        [ repeat wp_exact; reflexivity | reflexivity ] ] ].

(** X16: for backtrack-align, samse and sampe, when all required paths exist
    and the launch succeeds, the child's argument vector is the binary, the
    subcommand, the options (for backtrack-align [-t], [-n], [-o] with their
    values) and then the required paths in the order of the schema; the
    child is recorded as running exactly when it outlived the timeout. *)
Theorem command_launched (rt : Runtime) (settings : ServerSettings)
    (name : string) (arguments : dict) (w : World)
    (paths : list path) (tmpdir : string) (b : behaviour) :
  name ∈ ["bwa_aln"; "bwa_samse"; "bwa_sampe"] →
  paths_of arguments (required name) = Some paths →
  Forall (λ q, is_Some (fs w !! q)) paths →
  mkdtemp rt (temp_dir settings) (fs w) = Ok tmpdir →
  fs w !! Path tmpdir = None →
  let output := joinpath (Path tmpdir) (output_name name) in
  fs w !! output = None →
  let argv := bwa_path settings :: tool_label name
              :: options name arguments ++ (path_str <$> paths) in
  exec rt argv (<[output := Data ""]> (<[Path tmpdir := Dir 0]> (fs w))) = Ok b →
  children (call_tool rt settings name arguments w).2
  = children w ++ [Child argv (negb (run_time b <? timeout settings))].
Proof.
  intros Hname Hpaths Hexist Hmk Hfresh output Hout argv Hx.
  change (launches (Child argv (negb (run_time b <? timeout settings))) w
            (call_tool rt settings name arguments w)).
  subst output argv. unfold call_tool, handlers.
  repeat (apply elem_of_cons in Hname as [->|Hname]);
    try by apply elem_of_nil in Hname.
  all: simpl in Hpaths, Hout, Hx |- *; repeat (case_match; simplify_eq/=).
  - unfold _run_aln. wp_handler. unfold run_aln_body. wp_reads.
    all: launch_leaf Hmk Hfresh Hout Hx.
  - unfold _run_samse. wp_handler. unfold run_samse_body. wp_reads.
    all: launch_leaf Hmk Hfresh Hout Hx.
  - unfold _run_sampe. wp_handler. unfold run_sampe_body. wp_reads.
    all: launch_leaf Hmk Hfresh Hout Hx.
Qed.

Lemma command_launched_witness :
  children (call_tool (Scenario.runtime Scenario.good) default_settings
              "bwa_sampe"
              (<["sai_file1" := VStr "/data/r1.sai"]>
                 (<["sai_file2" := VStr "/data/r1.sai"]>
                    (<["reads1" := VStr "/data/r1.fq"]>
                       (<["reads2" := VStr "/data/r2.fq"]>
                          (<["reference" := VStr "/data/ref.fa"]> ∅)))))
              Cases.world).2
  = [Child ["bwa"; "sampe"; "/data/ref.fa"; "/data/r1.sai"; "/data/r1.sai";
            "/data/r1.fq"; "/data/r2.fq"] false].
Proof.
  apply (command_launched (Scenario.runtime Scenario.good) default_settings
           "bwa_sampe" _ Cases.world
           [Path "/data/ref.fa"; Path "/data/r1.sai"; Path "/data/r1.sai";
            Path "/data/r1.fq"; Path "/data/r2.fq"]
           "/tmp/tmpk3x9" Scenario.good).
  - repeat (apply elem_of_cons; first [by left | right]).
  - reflexivity.
  - repeat (apply Forall_cons; split; [by eexists |]). apply Forall_nil_2.
  - reflexivity.
  - reflexivity.
  - reflexivity.
  - reflexivity.
Defined.

(** The index operation is left out of the statement on advertised
    defaults: its schema advertises [bwtsw], but for a reference of
    2,000,000,000 bytes the handler's own default is [is]. *)
Example index_default_differs :
  tool_default bwa_index_tool "algorithm" = Some (VStr "bwtsw")
  ∧ children (call_tool (Scenario.runtime Scenario.good) default_settings
                "bwa_index" (<["algorithm" := VStr "bwtsw"]> Scenario.index_args)
                Scenario.world).2
    ≠ children (call_tool (Scenario.runtime Scenario.good) default_settings
                  "bwa_index" Scenario.index_args Scenario.world).2.
Proof. split; [reflexivity |]. by vm_compute. Qed.
